(** * Skia Gold integration test base: identity keys, outcome dispatch and
      the grace-period policy

    A shallow embedding of
    [content/test/gpu/gpu_tests/skia_gold_integration_test_base.py].

    Python objects become records, [None]-able attributes become [option],
    the class attribute [_image_parameters] points into an explicit heap of
    [_ImageParameters] objects (so that in-place mutation through an alias is
    visible), and [logging.error] / [artifacts.CreateLink] calls are recorded
    in an event log.  Exceptions are results of a small state-and-error
    monad; state changes made before a [raise] survive it, as in Python. *)

From Stdlib Require Import ZArith Ascii String HexString.
From stdpp Require Import base option list strings gmap.

Local Open Scope string_scope.
Local Open Scope Z_scope.

(** ** Python values that reach the log *)

Inductive pyval : Type :=
  | PNone
  | PInt (z : Z)
  | PStr (s : string).

Definition of_opt_str (o : option string) : pyval :=
  match o with
  | None => PNone
  | Some s => PStr s
  end.

(** Truthiness, as tested by [if], [and], [or] and [not]. *)
Definition truthy_int (o : option Z) : bool :=
  match o with
  | None => false
  | Some z => negb (z =? 0)
  end.

Definition truthy_str (o : option string) : bool :=
  match o with
  | None => false
  | Some s => negb (String.eqb s "")
  end.

(** [x or y] on a possibly-[None] string and a string default. *)
Definition str_or (x : option string) (y : string) : string :=
  match x with
  | Some s => if String.eqb s "" then y else s
  | None => y
  end.

(** ** String primitives used by the module *)

(** [sub in s] for strings. *)
Fixpoint str_contains (sub s : string) : bool :=
  if String.prefix sub s then true
  else match s with
       | EmptyString => false
       | String _ s' => str_contains sub s'
       end.

(** [s.split(sep)] for a one-character separator. *)
Fixpoint split (sep : ascii) (s : string) : list string :=
  match s with
  | EmptyString => [EmptyString]
  | String c s' =>
      if Ascii.eqb c sep then EmptyString :: split sep s'
      else match split sep s' with
           | [] => [String c EmptyString]
           | p :: ps => String c p :: ps
           end
  end.

(** [sep.join(parts)]. *)
Fixpoint join (sep : string) (parts : list string) : string :=
  match parts with
  | [] => EmptyString
  | [p] => p
  | p :: ps => p ++ sep ++ join sep ps
  end.

(** [str(b)] for a bool. *)
Definition str_of_bool (b : bool) : string :=
  if b then "True" else "False".

(** ** [datetime.date] *)

Record date : Type := Date { year : Z; month : Z; day : Z }.

(** Dates compare as (year, month, day) triples. *)
Definition date_le (a b : date) : bool :=
  if year a <? year b then true
  else if year b <? year a then false
  else if month a <? month b then true
  else if month b <? month a then false
  else day a <=? day b.

Definition is_leap (y : Z) : bool :=
  (y mod 4 =? 0) && (negb (y mod 100 =? 0) || (y mod 400 =? 0)).

Definition days_in_month (y m : Z) : Z :=
  if m =? 2 then (if is_leap y then 29 else 28)
  else if (m =? 4) || (m =? 6) || (m =? 9) || (m =? 11) then 30
  else 31.

(** [d - timedelta(days=1)]: the calendar day before [d]. *)
Definition yesterday (d : date) : date :=
  if 1 <? day d then Date (year d) (month d) (day d - 1)
  else if 1 <? month d then
    Date (year d) (month d - 1) (days_in_month (year d) (month d - 1))
  else Date (year d - 1) 12 31.

Example split_dotted : split "." "2.1.0.b50541b2d6c4" = ["2"; "1"; "0"; "b50541b2d6c4"].
Proof. reflexivity. Qed.

Example split_empty : split "." "" = [""].
Proof. reflexivity. Qed.

Example join_dotted : join "." ["2"; "1"; "0"] = "2.1.0".
Proof. reflexivity. Qed.

Example contains_angle : str_contains "ANGLE" "Google Inc. (ANGLE)" = true.
Proof. reflexivity. Qed.

Example yesterday_march : yesterday (Date 2024 3 1) = Date 2024 2 29.
Proof. reflexivity. Qed.

(** ** External collaborators: what the browser and the page report *)

Module GPUDevice.
Record t : Type := Make {
  vendor_id : option Z;
  device_id : option Z;
  vendor_string : option string;
  device_string : option string;
  driver_version : option string;
  driver_vendor : option string
}.
End GPUDevice.

Module GPUInfo.
Record t : Type := Make {
  devices : list GPUDevice.t;
  driver_bug_workarounds : list string
}.
End GPUInfo.

Module SystemInfo.
Record t : Type := Make {
  gpu : option GPUInfo.t;
  model_name : option string
}.
End SystemInfo.

Module Platform.
Record t : Type := Make {
  GetOSName : option string;
  GetOSVersionName : option string;
  GetOSVersionDetailString : option string
}.
End Platform.

Module Browser.
Record t : Type := Make {
  GetSystemInfo : option SystemInfo.t;
  platform : Platform.t
}.
End Browser.

(** The GPU [PixelTestPage] of one test. *)
Module Page.
Record t : Type := Make {
  gpu_process_disabled : bool;
  grace_period_end : option date;
  matching_algorithm_cmdline : list string
}.
End Page.

(** The parsed command line options read by this module. *)
Module Options.
Record t : Type := Make {
  no_skia_gold_failure : bool
}.
End Options.

Module GoldProperties.
Record t : Type := Make {
  local_pixel_tests : bool;
  no_luci_auth : bool;
  IsTryjobRun : bool
}.
End GoldProperties.

(** [SkiaGoldSession.StatusCodes]: declared outside this module, so the
    numeric codes are taken as given.  The success code is the falsy one. *)
Module StatusCodes.
Record t : Type := Make {
  AUTH_FAILURE : Z;
  INIT_FAILURE : Z;
  COMPARISON_FAILURE_REMOTE : Z;
  COMPARISON_FAILURE_LOCAL : Z;
  LOCAL_DIFF_FAILURE : Z
}.
End StatusCodes.

(** A Gold session, seen through the calls this module makes on it. *)
Module Session.
Record t : Type := Make {
  RunComparison :
    string -> list Z -> list string -> bool -> Z * option string;
  GetTriageLinks : string -> option string * option string;
  GetTriageLinkOmissionReason : string -> string;
  GetGivenImageLink : string -> option string;
  GetClosestImageLink : string -> option string;
  GetDiffImageLink : string -> option string
}.
End Session.

(** ** [_ImageParameters] *)

Module ImageParameters.
Record t : Type := Make {
  vendor_id : option Z;
  device_id : option Z;
  vendor_string : option string;
  device_string : option string;
  msaa : bool;
  model_name : option string;
  driver_version : option string;
  driver_vendor : option string
}.

(** [_ImageParameters.__init__]. *)
Definition init : t :=
  Make None None None None false None None None.

Definition set_vendor_id v (p : t) : t :=
  Make v (device_id p) (vendor_string p) (device_string p) (msaa p)
       (model_name p) (driver_version p) (driver_vendor p).
Definition set_device_id v (p : t) : t :=
  Make (vendor_id p) v (vendor_string p) (device_string p) (msaa p)
       (model_name p) (driver_version p) (driver_vendor p).
Definition set_vendor_string v (p : t) : t :=
  Make (vendor_id p) (device_id p) v (device_string p) (msaa p)
       (model_name p) (driver_version p) (driver_vendor p).
Definition set_device_string v (p : t) : t :=
  Make (vendor_id p) (device_id p) (vendor_string p) v (msaa p)
       (model_name p) (driver_version p) (driver_vendor p).
Definition set_msaa v (p : t) : t :=
  Make (vendor_id p) (device_id p) (vendor_string p) (device_string p) v
       (model_name p) (driver_version p) (driver_vendor p).
Definition set_model_name v (p : t) : t :=
  Make (vendor_id p) (device_id p) (vendor_string p) (device_string p)
       (msaa p) v (driver_version p) (driver_vendor p).
Definition set_driver_version v (p : t) : t :=
  Make (vendor_id p) (device_id p) (vendor_string p) (device_string p)
       (msaa p) (model_name p) v (driver_vendor p).
Definition set_driver_vendor v (p : t) : t :=
  Make (vendor_id p) (device_id p) (vendor_string p) (device_string p)
       (msaa p) (model_name p) (driver_version p) v.
End ImageParameters.

(** ** Program state, events and the execution monad *)

Inductive event : Type :=
  | LoggingError (fmt : string) (args : list pyval)
  | CreateLink (name : string) (link : pyval).

Inductive exn : Type :=
  | Exception (msg : string)
  | TypeError (msg : string)
  | IndexError (msg : string).

Inductive result (A : Type) : Type :=
  | Ok (a : A)
  | Raise (e : exn).
Arguments Ok {A} a.
Arguments Raise {A} e.

(** Objects are referred to by their position in the heap. *)
Definition loc : Type := nat.

Record state : Type := State {
  heap : list ImageParameters.t;
  _image_parameters : option loc;
  log : list event
}.

Definition Py (A : Type) : Type := state -> result A * state.

Definition ret {A} (a : A) : Py A := fun st => (Ok a, st).

Definition bind {A B} (m : Py A) (k : A -> Py B) : Py B :=
  fun st =>
    match m st with
    | (Ok a, st') => k a st'
    | (Raise e, st') => (Raise e, st')
    end.

Definition raise {A} (e : exn) : Py A := fun st => (Raise e, st).

Declare Scope py_scope.
Delimit Scope py_scope with py.
Notation "x <- m ;; k" := (bind m (fun x => k))
  (at level 100, m at next level, right associativity) : py_scope.
Notation "m ;; k" := (bind m (fun _ => k))
  (at level 100, right associativity) : py_scope.
Local Open Scope py_scope.

Definition get_cls_image_parameters : Py (option loc) :=
  fun st => (Ok (_image_parameters st), st).

Definition set_cls_image_parameters (v : option loc) : Py unit :=
  fun st => (Ok tt, State (heap st) v (log st)).

(** Object creation: a new cell at the end of the heap. *)
Definition new_ImageParameters : Py loc :=
  fun st =>
    (Ok (length (heap st)),
     State (heap st ++ [ImageParameters.init]) (_image_parameters st) (log st)).

(** Attribute read through a reference.  References come from
    [new_ImageParameters] only, so the failing case is never reached from
    the initial state. *)
Definition deref (l : loc) : Py ImageParameters.t :=
  fun st =>
    match heap st !! l with
    | Some p => (Ok p, st)
    | None => (Raise (TypeError "dangling reference"), st)
    end.

(** Attribute write through a reference. *)
Definition update (l : loc) (f : ImageParameters.t -> ImageParameters.t)
  : Py unit :=
  fun st =>
    match heap st !! l with
    | Some p => (Ok tt, State (<[l := f p]> (heap st)) (_image_parameters st) (log st))
    | None => (Raise (TypeError "dangling reference"), st)
    end.

Definition emit (e : event) : Py unit :=
  fun st => (Ok tt, State (heap st) (_image_parameters st) (log st ++ [e])).

Definition logging_error (fmt : string) (args : list pyval) : Py unit :=
  emit (LoggingError fmt args).

(** ** Module-level helpers *)

Definition SKIA_GOLD_CORPUS : string := "chrome-gpu".

(** [hex(int(num))]: ["0x"] followed by lowercase digits, ["-0x..."] for a
    negative number. *)
Definition _ToHex (num : Z) : string := HexString.of_Z num.

Definition _ToHexOrNone (num : option Z) : string :=
  match num with
  | None => "None"
  | Some n => _ToHex n
  end.

(** ['None' if val == '' else str(val)]; [str(None)] is ['None'] too. *)
Definition _ToNonEmptyStrOrNone (val : option string) : string :=
  match val with
  | None => "None"
  | Some s => if String.eqb s "" then "None" else s
  end.

(** Truthiness of [page.grace_period_end and date.today() <= page.grace_period_end];
    a [date] object is always truthy. *)
Definition _GracePeriodActive (today : date) (page : Page.t) : bool :=
  match Page.grace_period_end page with
  | None => false
  | Some end_date => date_le today end_date
  end.

(** The [for ... break] loop of [_StripAngleRevisionFromDriver]. *)
Fixpoint kept_parts_loop (driver_parts kept_parts : list string) : list string :=
  match driver_parts with
  | [] => kept_parts
  | part :: rest =>
      if (8 <? String.length part)%nat then kept_parts
      else kept_parts_loop rest (kept_parts ++ [part])
  end.

(** What [_StripAngleRevisionFromDriver] does to the object it is given. *)
Definition strip_angle_revision (img_params : ImageParameters.t)
  : result ImageParameters.t :=
  match ImageParameters.driver_vendor img_params with
  | None => Raise (TypeError "argument of type 'NoneType' is not iterable")
  | Some vendor =>
      if negb (str_contains "ANGLE" vendor) then Ok img_params
      else match ImageParameters.driver_version img_params with
           | None => Ok img_params
           | Some version =>
               if String.eqb version "" then Ok img_params
               else
                 let driver_parts := split "." version in
                 let kept_parts := kept_parts_loop driver_parts [] in
                 Ok (ImageParameters.set_driver_version
                       (Some (join "." kept_parts)) img_params)
           end
  end.

(** The object is modified in place, through the reference. *)
Definition _StripAngleRevisionFromDriver (img_params : loc) : Py unit :=
  p <- deref img_params;;
  match strip_angle_revision p with
  | Ok p' => update img_params (fun _ => p')
  | Raise e => raise e
  end.

Definition _GetCombinedHardwareIdentifier (img_params : ImageParameters.t)
  : string :=
  let vendor_id := _ToHexOrNone (ImageParameters.vendor_id img_params) in
  let device_id := _ToHexOrNone (ImageParameters.device_id img_params) in
  let device_string :=
    _ToNonEmptyStrOrNone (ImageParameters.device_string img_params) in
  "vendor_id:" ++ vendor_id ++ ", device_id:" ++ device_id
    ++ ", device_string:" ++ device_string.

Definition _OutputLocalDiffFiles (gold_session : Session.t)
    (image_name : string) : Py unit :=
  let given_file := Session.GetGivenImageLink gold_session image_name in
  let closest_file := Session.GetClosestImageLink gold_session image_name in
  let diff_file := Session.GetDiffImageLink gold_session image_name in
  let failure_message := "Unable to retrieve link" in
  logging_error "Generated image: %s" [PStr (str_or given_file failure_message)];;
  logging_error "Closest image: %s" [PStr (str_or closest_file failure_message)];;
  logging_error "Diff image: %s" [PStr (str_or diff_file failure_message)].

(** A dict literal: later entries win. *)
Definition dict_of (entries : list (string * string)) : gmap string string :=
  fold_left (fun d kv => <[kv.1 := kv.2]> d) entries ∅.

(** ** [SkiaGoldIntegrationTestBase] *)

(** Everything the class reads but does not own.  [today] is what
    [date.today()] returns while one test runs; the Gold session is the one
    the session manager hands out for a key set and a corpus. *)
Record Env : Type := MkEnv {
  browser : Browser.t;
  today : date;
  GetParsedCommandLineOptions : Options.t;
  GetSkiaGoldProperties : GoldProperties.t;
  GetSkiaGoldSession : gmap string string -> string -> Session.t;
  SessionStatusCodes : StatusCodes.t
}.

Section SkiaGoldIntegrationTestBase.
Variable env : Env.

Definition ResetGpuInfo : Py unit := set_cls_image_parameters None.

Definition _ComputeGpuInfo (page : Page.t) : Py unit :=
  cached <- get_cls_image_parameters;;
  match cached with
  | Some _ => ret tt
  | None =>
    match Browser.GetSystemInfo (browser env) with
    | None => raise (Exception "System info must be supported by the browser")
    | Some system_info =>
      match SystemInfo.gpu system_info with
      | None => raise (Exception "GPU information was absent")
      | Some gpu =>
        match GPUInfo.devices gpu with
        | [] => raise (IndexError "list index out of range")
        | device :: _ =>
          params <- new_ImageParameters;;
          set_cls_image_parameters (Some params);;
          (if truthy_int (GPUDevice.vendor_id device)
              && truthy_int (GPUDevice.device_id device) then
             update params (ImageParameters.set_vendor_id (GPUDevice.vendor_id device));;
             update params (ImageParameters.set_device_id (GPUDevice.device_id device))
           else if truthy_str (GPUDevice.vendor_string device)
                   && truthy_str (GPUDevice.device_string device) then
             update params (ImageParameters.set_vendor_string (GPUDevice.vendor_string device));;
             update params (ImageParameters.set_device_string (GPUDevice.device_string device))
           else if Page.gpu_process_disabled page then
             update params (ImageParameters.set_vendor_id (Some 65535));;
             update params (ImageParameters.set_device_id (Some 65535))
           else
             raise (Exception "GPU device information was incomplete"));;
          update params (ImageParameters.set_msaa
            (negb (existsb (String.eqb "disable_chromium_framebuffer_multisample")
                           (GPUInfo.driver_bug_workarounds gpu)
                   || existsb (String.eqb "disable_multisample_render_to_texture")
                              (GPUInfo.driver_bug_workarounds gpu))));;
          update params (ImageParameters.set_model_name (SystemInfo.model_name system_info));;
          update params (ImageParameters.set_driver_version (GPUDevice.driver_version device));;
          update params (ImageParameters.set_driver_vendor (GPUDevice.driver_vendor device))
        end
      end
    end
  end.

Definition GetImageParameters (page : Page.t) : Py (option loc) :=
  cached <- get_cls_image_parameters;;
  (match cached with
   | None => _ComputeGpuInfo page
   | Some _ => ret tt
   end);;
  get_cls_image_parameters.

Definition GetGoldJsonKeys (page : Page.t) : Py (gmap string string) :=
  r <- GetImageParameters page;;
  match r with
  | None => raise (TypeError "'NoneType' object has no attribute 'driver_vendor'")
  | Some img_params =>
    _StripAngleRevisionFromDriver img_params;;
    p <- deref img_params;;
    let gpu_keys := dict_of [
      ("vendor_id", _ToHexOrNone (ImageParameters.vendor_id p));
      ("device_id", _ToHexOrNone (ImageParameters.device_id p));
      ("vendor_string", _ToNonEmptyStrOrNone (ImageParameters.vendor_string p));
      ("device_string", _ToNonEmptyStrOrNone (ImageParameters.device_string p));
      ("msaa", str_of_bool (ImageParameters.msaa p));
      ("model_name", _ToNonEmptyStrOrNone (ImageParameters.model_name p));
      ("os", _ToNonEmptyStrOrNone (Platform.GetOSName (Browser.platform (browser env))));
      ("os_version",
        _ToNonEmptyStrOrNone (Platform.GetOSVersionName (Browser.platform (browser env))));
      ("os_version_detail_string",
        _ToNonEmptyStrOrNone
          (Platform.GetOSVersionDetailString (Browser.platform (browser env))));
      ("driver_version", _ToNonEmptyStrOrNone (ImageParameters.driver_version p));
      ("driver_vendor", _ToNonEmptyStrOrNone (ImageParameters.driver_vendor p));
      ("combined_hardware_identifier", _GetCombinedHardwareIdentifier p)
    ] in
    if _GracePeriodActive (today env) page
    then ret (<["ignore" := "1"]> gpu_keys)
    else ret gpu_keys
  end.

Definition _ShouldReportGoldFailure (page : Page.t) : bool :=
  let parsed_options := GetParsedCommandLineOptions env in
  if Options.no_skia_gold_failure parsed_options then false
  else if _GracePeriodActive (today env) page then false
  else true.

Definition _UploadTestResultToSkiaGold (image_name : string)
    (screenshot : list Z) (page : Page.t) : Py unit :=
  (* The screenshot is first written to a temporary PNG; the file system is
     not modelled and the image is handed to the session as it is. *)
  gpu_keys <- GetGoldJsonKeys page;;
  let gold_session := GetSkiaGoldSession env gpu_keys SKIA_GOLD_CORPUS in
  let gold_properties := GetSkiaGoldProperties env in
  let use_luci :=
    negb (GoldProperties.local_pixel_tests gold_properties
          || GoldProperties.no_luci_auth gold_properties) in
  let inexact_matching_args := Page.matching_algorithm_cmdline page in
  let '(status, error) :=
    Session.RunComparison gold_session image_name screenshot
      inexact_matching_args use_luci in
  (* [if not status: return] *)
  if status =? 0 then ret tt
  else
    let status_codes := SessionStatusCodes env in
    (if status =? StatusCodes.AUTH_FAILURE status_codes then
       logging_error "Gold authentication failed with output %s" [of_opt_str error]
     else if status =? StatusCodes.INIT_FAILURE status_codes then
       logging_error "Gold initialization failed with output %s" [of_opt_str error]
     else if status =? StatusCodes.COMPARISON_FAILURE_REMOTE status_codes then
       let '(_, triage_link) := Session.GetTriageLinks gold_session image_name in
       if negb (truthy_str triage_link) then
         logging_error "Failed to get triage link for %s, raw output: %s"
           [PStr image_name; of_opt_str error];;
         logging_error "Reason for no triage link: %s"
           [PStr (Session.GetTriageLinkOmissionReason gold_session image_name)]
       else if GoldProperties.IsTryjobRun gold_properties then
         emit (CreateLink "triage_link_for_entire_cl" (of_opt_str triage_link))
       else
         emit (CreateLink "gold_triage_link" (of_opt_str triage_link))
     else if status =? StatusCodes.COMPARISON_FAILURE_LOCAL status_codes then
       logging_error "Local comparison failed. Local diff files:" [];;
       _OutputLocalDiffFiles gold_session image_name
     else if status =? StatusCodes.LOCAL_DIFF_FAILURE status_codes then
       logging_error
         "Local comparison failed and an error occurred during diff generation: %s"
         [of_opt_str error];;
       logging_error "Local diff files:" [];;
       _OutputLocalDiffFiles gold_session image_name
     else
       logging_error "Given unhandled SkiaGoldSession StatusCode %s with error %s"
         [PInt status; of_opt_str error]);;
    if _ShouldReportGoldFailure page then
      raise (Exception "goldctl command failed, see above for details")
    else ret tt.

End SkiaGoldIntegrationTestBase.

Definition initial_state : state := State [] None [].

(** * Properties *)

Local Open Scope list_scope.

(** ** Splitting and joining *)

Fixpoint has_char (c : ascii) (s : string) : bool :=
  match s with
  | EmptyString => false
  | String c' s' => Ascii.eqb c' c || has_char c s'
  end.

Lemma split_not_nil sep s : split sep s <> [].
Proof.
  destruct s as [|c s]; simpl; [discriminate|].
  destruct (Ascii.eqb c sep); [discriminate|].
  destruct (split sep s); discriminate.
Qed.

Lemma split_parts_no_sep sep s :
  Forall (fun p => has_char sep p = false) (split sep s).
Proof.
  induction s as [|c s IH]; simpl.
  - repeat constructor.
  - destruct (Ascii.eqb c sep) eqn:Hc.
    + constructor; [reflexivity | exact IH].
    + destruct (split sep s) as [|p ps].
      * constructor; [simpl; rewrite Hc; reflexivity | constructor].
      * inversion IH as [|? ? Hp Hps]; subst.
        constructor; [simpl; rewrite Hc; exact Hp | exact Hps].
Qed.

Lemma split_without_sep sep p :
  has_char sep p = false -> split sep p = [p].
Proof.
  induction p as [|c p IH]; simpl; [reflexivity|].
  intros H. apply orb_false_iff in H as [Hc Hp].
  rewrite Hc, (IH Hp). reflexivity.
Qed.

Lemma split_app_sep sep p t :
  has_char sep p = false ->
  split sep (p ++ String sep t)%string = p :: split sep t.
Proof.
  induction p as [|c p IH]; simpl.
  - intros _. rewrite Ascii.eqb_refl. reflexivity.
  - intros H. apply orb_false_iff in H as [Hc Hp].
    rewrite Hc, (IH Hp). reflexivity.
Qed.

Lemma split_join sep parts :
  parts <> [] ->
  Forall (fun p => has_char sep p = false) parts ->
  split sep (join (String sep EmptyString) parts) = parts.
Proof.
  induction parts as [|p ps IH]; [congruence|].
  intros _ Hall. inversion Hall as [|? ? Hp Hps]; subst.
  destruct ps as [|q qs].
  - simpl. apply split_without_sep, Hp.
  - change (join (String sep "") (p :: q :: qs))
      with (p ++ String sep (join (String sep "") (q :: qs)))%string.
    rewrite split_app_sep by exact Hp.
    rewrite IH; [reflexivity | discriminate | exact Hps].
Qed.

(** ** The truncation loop *)

Definition short_part (part : string) : bool :=
  negb (8 <? String.length part)%nat.

Lemma kept_parts_loop_acc parts acc :
  kept_parts_loop parts acc = (acc ++ kept_parts_loop parts [])%list.
Proof.
  revert acc. induction parts as [|part rest IH]; intros acc; simpl.
  - symmetry. apply app_nil_r.
  - destruct (8 <? String.length part)%nat.
    + symmetry. apply app_nil_r.
    + rewrite (IH (acc ++ [part])), (IH [part]).
      rewrite <- app_assoc. reflexivity.
Qed.

Lemma kept_parts_loop_cons part rest :
  kept_parts_loop (part :: rest) [] =
  if short_part part then part :: kept_parts_loop rest [] else [].
Proof.
  unfold short_part. simpl.
  destruct (8 <? String.length part)%nat; simpl; [reflexivity|].
  apply kept_parts_loop_acc.
Qed.

Lemma kept_parts_loop_short parts :
  Forall (fun p => short_part p = true) (kept_parts_loop parts []).
Proof.
  induction parts as [|part rest IH]; [constructor|].
  rewrite kept_parts_loop_cons.
  destruct (short_part part) eqn:Hs; constructor; assumption.
Qed.

Lemma kept_parts_loop_Forall (P : string -> Prop) parts :
  Forall P parts -> Forall P (kept_parts_loop parts []).
Proof.
  induction 1 as [|part rest Hp Hrest IH]; [constructor|].
  rewrite kept_parts_loop_cons.
  destruct (short_part part); constructor; assumption.
Qed.

Lemma kept_parts_loop_fixed parts :
  Forall (fun p => short_part p = true) parts ->
  kept_parts_loop parts [] = parts.
Proof.
  induction 1 as [|part rest Hp Hrest IH]; [reflexivity|].
  rewrite kept_parts_loop_cons, Hp, IH. reflexivity.
Qed.

(** Truncating an already truncated version string changes nothing. *)
Lemma truncate_twice version :
  let once := join "." (kept_parts_loop (split "." version) []) in
  once = "" \/ join "." (kept_parts_loop (split "." once) []) = once.
Proof.
  intros once.
  destruct (kept_parts_loop (split "." version) []) as [|k ks] eqn:Hk.
  - left. reflexivity.
  - right. subst once.
    rewrite split_join.
    + rewrite kept_parts_loop_fixed; [reflexivity|].
      rewrite <- Hk. apply kept_parts_loop_short.
    + discriminate.
    + rewrite <- Hk. apply kept_parts_loop_Forall, split_parts_no_sep.
Qed.

(** ** Driver-version truncation *)

Lemma strip_angle_revision_total p vendor :
  ImageParameters.driver_vendor p = Some vendor ->
  exists p', strip_angle_revision p = Ok p'.
Proof.
  intros Hv. unfold strip_angle_revision. rewrite Hv.
  destruct (negb (str_contains "ANGLE" vendor)); [eauto|].
  destruct (ImageParameters.driver_version p) as [version|]; [|eauto].
  destruct (String.eqb version ""); eauto.
Qed.

Lemma strip_angle_revision_twice p p' :
  strip_angle_revision p = Ok p' -> strip_angle_revision p' = Ok p'.
Proof.
  unfold strip_angle_revision.
  destruct (ImageParameters.driver_vendor p) as [vendor|] eqn:Hv; [|discriminate].
  destruct (negb (str_contains "ANGLE" vendor)) eqn:Hc.
  { intros [= <-]. rewrite Hv, Hc. reflexivity. }
  destruct (ImageParameters.driver_version p) as [version|] eqn:Hd.
  2:{ intros [= <-]. rewrite Hv, Hc, Hd. reflexivity. }
  destruct (String.eqb version "") eqn:He.
  { intros [= <-]. rewrite Hv, Hc, Hd, He. reflexivity. }
  intros [= <-]. cbn [ImageParameters.set_driver_version
    ImageParameters.driver_vendor ImageParameters.driver_version].
  rewrite Hv, Hc.
  clear He.
  destruct (truncate_twice version) as [Hempty | Hfix].
  - rewrite Hempty. reflexivity.
  - set (once := join "." (kept_parts_loop (split "." version) [])) in *.
    destruct (String.eqb once ""); [reflexivity|].
    unfold ImageParameters.set_driver_version; simpl.
    rewrite Hfix. reflexivity.
Qed.

Lemma strip_angle_revision_raises p e :
  strip_angle_revision p = Raise e ->
  e <> Exception "goldctl command failed, see above for details".
Proof.
  unfold strip_angle_revision.
  destruct (ImageParameters.driver_vendor p) as [vendor|].
  - destruct (negb (str_contains "ANGLE" vendor)); [discriminate|].
    destruct (ImageParameters.driver_version p) as [version|]; [|discriminate].
    destruct (String.eqb version ""); discriminate.
  - intros [= <-]. discriminate.
Qed.

(** Only [driver_version] is ever written. *)
Lemma strip_angle_revision_frame p p' :
  strip_angle_revision p = Ok p' ->
  p' = ImageParameters.set_driver_version (ImageParameters.driver_version p') p.
Proof.
  unfold strip_angle_revision.
  destruct (ImageParameters.driver_vendor p) as [vendor|]; [|discriminate].
  destruct (negb (str_contains "ANGLE" vendor)).
  { intros [= <-]. destruct p; reflexivity. }
  destruct (ImageParameters.driver_version p) as [version|].
  2:{ intros [= <-]. destruct p; reflexivity. }
  destruct (String.eqb version "").
  { intros [= <-]. destruct p; reflexivity. }
  intros [= <-]. destruct p; reflexivity.
Qed.

(** C4: the driver-version truncation is idempotent (a second application
    returns its argument unchanged), it returns for every driver whose
    vendor is a string, and it leaves the object untouched when the vendor
    does not contain "ANGLE" or when the driver version is the empty
    string (or [None]). *)
Theorem strip_angle_revision_idempotent (p : ImageParameters.t)
    (vendor : string)
    (Hvendor : ImageParameters.driver_vendor p = Some vendor) :
  exists p',
    strip_angle_revision p = Ok p' /\
    strip_angle_revision p' = Ok p' /\
    (str_contains "ANGLE" vendor = false -> p' = p) /\
    (ImageParameters.driver_version p = Some "" -> p' = p) /\
    (ImageParameters.driver_version p = None -> p' = p).
Proof.
  destruct (strip_angle_revision_total p vendor Hvendor) as [p' Hp'].
  exists p'. split; [exact Hp'|].
  split; [exact (strip_angle_revision_twice p p' Hp')|].
  unfold strip_angle_revision in Hp'. rewrite Hvendor in Hp'.
  repeat split.
  - intros Hc. rewrite Hc in Hp'. simpl in Hp'. congruence.
  - intros Hd. rewrite Hd in Hp'. simpl in Hp'.
    destruct (negb (str_contains "ANGLE" vendor)); congruence.
  - intros Hd. rewrite Hd in Hp'.
    destruct (negb (str_contains "ANGLE" vendor)); congruence.
Qed.

Definition angle_params : ImageParameters.t :=
  ImageParameters.Make (Some 32902) (Some 22802) None None true
    (Some "model") (Some "2.1.0.b50541b2d6c4") (Some "Google Inc. (ANGLE)").

Lemma strip_angle_revision_idempotent_witness :
  exists p',
    strip_angle_revision angle_params = Ok p' /\
    strip_angle_revision p' = Ok p' /\
    (str_contains "ANGLE" "Google Inc. (ANGLE)" = false -> p' = angle_params) /\
    (ImageParameters.driver_version angle_params = Some "" -> p' = angle_params) /\
    (ImageParameters.driver_version angle_params = None -> p' = angle_params).
Proof.
  apply (strip_angle_revision_idempotent angle_params "Google Inc. (ANGLE)").
  reflexivity.
Defined.

Example strip_docstring_example :
  strip_angle_revision angle_params =
  Ok (ImageParameters.set_driver_version (Some "2.1.0") angle_params).
Proof. reflexivity. Qed.

Example strip_long_first_part :
  strip_angle_revision
    (ImageParameters.set_driver_version (Some "123456789.1") angle_params) =
  Ok (ImageParameters.set_driver_version (Some "") angle_params).
Proof. reflexivity. Qed.

Example strip_other_vendor :
  strip_angle_revision
    (ImageParameters.set_driver_vendor (Some "NVIDIA") angle_params) =
  Ok (ImageParameters.set_driver_vendor (Some "NVIDIA") angle_params).
Proof. reflexivity. Qed.

Example strip_no_vendor :
  strip_angle_revision ImageParameters.init =
  Raise (TypeError "argument of type 'NoneType' is not iterable").
Proof. reflexivity. Qed.

(** ** Dates and the grace period *)

(** [date_le] is the lexicographic order on (year, month, day). *)
Lemma date_le_spec a b :
  date_le a b = true <->
  year a < year b \/
  (year a = year b /\
   (month a < month b \/ (month a = month b /\ day a <= day b))).
Proof.
  unfold date_le.
  destruct (Z.ltb_spec (year a) (year b)); [intuition lia|].
  destruct (Z.ltb_spec (year b) (year a)); [intuition (try discriminate; lia)|].
  destruct (Z.ltb_spec (month a) (month b)); [intuition lia|].
  destruct (Z.ltb_spec (month b) (month a)); [intuition (try discriminate; lia)|].
  rewrite Z.leb_le. intuition lia.
Qed.

Lemma date_le_refl d : date_le d d = true.
Proof. apply date_le_spec. right. split; [reflexivity|]. right. lia. Qed.

(** The day before [d] is strictly earlier than [d]. *)
Lemma yesterday_before d : date_le d (yesterday d) = false.
Proof.
  apply not_true_is_false. rewrite date_le_spec. unfold yesterday.
  destruct (Z.ltb_spec 1 (day d)); simpl; [lia|].
  destruct (Z.ltb_spec 1 (month d)); simpl; lia.
Qed.

Lemma _GracePeriodActive_iff today page :
  _GracePeriodActive today page = true <->
  exists end_date,
    Page.grace_period_end page = Some end_date /\ date_le today end_date = true.
Proof.
  unfold _GracePeriodActive.
  destruct (Page.grace_period_end page) as [d|].
  - split; [eauto | intros (d' & [= <-] & H); exact H].
  - split; [discriminate | intros (d' & [=] & _)].
Qed.

(** C3: the grace period is active exactly when an end date is present and
    today is on or before it (in calendar order); with the end date equal to
    today the failure is not surfaced, and with the end date equal to
    yesterday it is surfaced provided the bypass option is unset. *)
Theorem grace_period_boundary (env : Env) (page : Page.t) :
  (_GracePeriodActive (today env) page = true <->
   exists end_date,
     Page.grace_period_end page = Some end_date /\
     (year (today env) < year end_date \/
      (year (today env) = year end_date /\
       (month (today env) < month end_date \/
        (month (today env) = month end_date /\ day (today env) <= day end_date))))) /\
  (Page.grace_period_end page = Some (today env) ->
   _ShouldReportGoldFailure env page = false) /\
  (Options.no_skia_gold_failure (GetParsedCommandLineOptions env) = false ->
   Page.grace_period_end page = Some (yesterday (today env)) ->
   _ShouldReportGoldFailure env page = true).
Proof.
  split; [|split].
  - rewrite _GracePeriodActive_iff.
    split; intros (d & Hd & Hle); exists d; (split; [exact Hd|]);
      apply date_le_spec; exact Hle.
  - intros Hend. unfold _ShouldReportGoldFailure, _GracePeriodActive.
    rewrite Hend, date_le_refl.
    destruct (Options.no_skia_gold_failure _); reflexivity.
  - intros Hbypass Hend. unfold _ShouldReportGoldFailure, _GracePeriodActive.
    rewrite Hbypass, Hend, yesterday_before. reflexivity.
Qed.

(** ** A concrete bot configuration, used to exercise the statements *)

Definition intel_device : GPUDevice.t :=
  GPUDevice.Make (Some 32902) (Some 22802) (Some "Intel") (Some "HD Graphics 630")
    (Some "2.1.0.b50541b2d6c4") (Some "Google Inc. (ANGLE)").

Definition sample_session (status : Z) (triage_link : option string) : Session.t :=
  Session.Make
    (fun _ _ _ _ => (status, Some "goldctl output"))
    (fun _ => (None, triage_link))
    (fun _ => "Gold has not seen this image")
    (fun _ => Some "file:///tmp/given.png")
    (fun _ => None)
    (fun _ => Some "").

Definition sample_env (device : GPUDevice.t) (bypass : bool) (status : Z)
    (triage_link : option string) : Env :=
  MkEnv
    (Browser.Make
       (Some (SystemInfo.Make (Some (GPUInfo.Make [device] [])) (Some "model")))
       (Platform.Make (Some "win") (Some "win10") (Some "")))
    (Date 2024 3 1)
    (Options.Make bypass)
    (GoldProperties.Make false false true)
    (fun _ _ => sample_session status triage_link)
    (StatusCodes.Make 1 2 3 4 5).

Definition sample_page (grace_period_end : option date) : Page.t :=
  Page.Make false grace_period_end [].

Lemma grace_period_boundary_witness :
  _ShouldReportGoldFailure (sample_env intel_device false 1 None)
    (sample_page (Some (Date 2024 2 29))) = true.
Proof.
  apply (proj2 (proj2 (grace_period_boundary
           (sample_env intel_device false 1 None)
           (sample_page (Some (Date 2024 2 29)))))); reflexivity.
Defined.

(** ** Running the monad *)

Lemma update_fresh h c lg x f :
  update (length h) f (State (h ++ [x]) c lg) = (Ok tt, State (h ++ [f x]) c lg).
Proof.
  unfold update. cbn [heap _image_parameters log].
  rewrite list_lookup_middle by reflexivity.
  rewrite insert_app_r_alt by lia.
  rewrite Nat.sub_diag. reflexivity.
Qed.

Lemma update_cached st l p f :
  heap st !! l = Some p ->
  update l f st = (Ok tt, State (<[l := f p]> (heap st)) (_image_parameters st) (log st)).
Proof. intros H. unfold update. rewrite H. reflexivity. Qed.

Lemma deref_cached st l p :
  heap st !! l = Some p -> deref l st = (Ok p, st).
Proof. intros H. unfold deref. rewrite H. reflexivity. Qed.

Lemma bind_ok {A B} (m : Py A) (k : A -> Py B) st a st' :
  m st = (Ok a, st') -> bind m k st = k a st'.
Proof. intros H. unfold bind. rewrite H. reflexivity. Qed.

Lemma bind_raise {A B} (m : Py A) (k : A -> Py B) st e st' :
  m st = (Raise e, st') -> bind m k st = (Raise e, st').
Proof. intros H. unfold bind. rewrite H. reflexivity. Qed.

(** ** [_ComputeGpuInfo] on an empty cache *)

(** Which identity fields the if/elif chain writes, if any. *)
Definition identity_source (device : GPUDevice.t) (page : Page.t)
  : option (ImageParameters.t -> ImageParameters.t) :=
  if truthy_int (GPUDevice.vendor_id device)
     && truthy_int (GPUDevice.device_id device) then
    Some (fun p =>
      ImageParameters.set_device_id (GPUDevice.device_id device)
        (ImageParameters.set_vendor_id (GPUDevice.vendor_id device) p))
  else if truthy_str (GPUDevice.vendor_string device)
          && truthy_str (GPUDevice.device_string device) then
    Some (fun p =>
      ImageParameters.set_device_string (GPUDevice.device_string device)
        (ImageParameters.set_vendor_string (GPUDevice.vendor_string device) p))
  else if Page.gpu_process_disabled page then
    Some (fun p =>
      ImageParameters.set_device_id (Some 65535)
        (ImageParameters.set_vendor_id (Some 65535) p))
  else None.

(** The four assignments after the chain. *)
Definition common_fields (gpu : GPUInfo.t) (system_info : SystemInfo.t)
    (device : GPUDevice.t) (p : ImageParameters.t) : ImageParameters.t :=
  ImageParameters.set_driver_vendor (GPUDevice.driver_vendor device)
    (ImageParameters.set_driver_version (GPUDevice.driver_version device)
      (ImageParameters.set_model_name (SystemInfo.model_name system_info)
        (ImageParameters.set_msaa
          (negb (existsb (String.eqb "disable_chromium_framebuffer_multisample")
                         (GPUInfo.driver_bug_workarounds gpu)
                 || existsb (String.eqb "disable_multisample_render_to_texture")
                            (GPUInfo.driver_bug_workarounds gpu)))
          p))).

(** The browser reports system info with a GPU whose first device is
    [device]. *)
Definition reports (env : Env) (system_info : SystemInfo.t) (gpu : GPUInfo.t)
    (device : GPUDevice.t) : Prop :=
  Browser.GetSystemInfo (browser env) = Some system_info /\
  SystemInfo.gpu system_info = Some gpu /\
  head (GPUInfo.devices gpu) = Some device.

Lemma _ComputeGpuInfo_fresh env page st system_info gpu device :
  _image_parameters st = None ->
  reports env system_info gpu device ->
  _ComputeGpuInfo env page st =
  match identity_source device page with
  | Some f =>
      (Ok tt,
       State (heap st ++ [common_fields gpu system_info device (f ImageParameters.init)])
             (Some (length (heap st))) (log st))
  | None =>
      (Raise (Exception "GPU device information was incomplete"),
       State (heap st ++ [ImageParameters.init]) (Some (length (heap st))) (log st))
  end.
Proof.
  intros Hcache (Hsys & Hgpu & Hdev).
  unfold _ComputeGpuInfo, identity_source, common_fields.
  unfold bind at 1. unfold get_cls_image_parameters at 1.
  rewrite Hcache, Hsys, Hgpu.
  destruct (GPUInfo.devices gpu) as [|d rest]; [discriminate|].
  injection Hdev as ->.
  unfold bind, new_ImageParameters, set_cls_image_parameters, ret, raise.
  cbn [heap _image_parameters log].
  destruct (truthy_int (GPUDevice.vendor_id device)
            && truthy_int (GPUDevice.device_id device)).
  { rewrite !update_fresh. reflexivity. }
  destruct (truthy_str (GPUDevice.vendor_string device)
            && truthy_str (GPUDevice.device_string device)).
  { rewrite !update_fresh. reflexivity. }
  destruct (Page.gpu_process_disabled page).
  { rewrite !update_fresh. reflexivity. }
  reflexivity.
Qed.

Lemma _ComputeGpuInfo_cached env page st l :
  _image_parameters st = Some l -> _ComputeGpuInfo env page st = (Ok tt, st).
Proof.
  intros H. unfold _ComputeGpuInfo, bind, get_cls_image_parameters.
  rewrite H. reflexivity.
Qed.

(** ** [GetImageParameters] and [GetGoldJsonKeys] *)

(** The cached identity object of a state, if any. *)
Definition stored (st : state) (p : ImageParameters.t) : Prop :=
  exists l, _image_parameters st = Some l /\ heap st !! l = Some p.

(** The dict that [GetGoldJsonKeys] returns, as a function of the contents
    of the identity object at the time it is read. *)
Definition key_set (env : Env) (page : Page.t) (p : ImageParameters.t)
  : gmap string string :=
  let gpu_keys := dict_of [
    ("vendor_id", _ToHexOrNone (ImageParameters.vendor_id p));
    ("device_id", _ToHexOrNone (ImageParameters.device_id p));
    ("vendor_string", _ToNonEmptyStrOrNone (ImageParameters.vendor_string p));
    ("device_string", _ToNonEmptyStrOrNone (ImageParameters.device_string p));
    ("msaa", str_of_bool (ImageParameters.msaa p));
    ("model_name", _ToNonEmptyStrOrNone (ImageParameters.model_name p));
    ("os", _ToNonEmptyStrOrNone (Platform.GetOSName (Browser.platform (browser env))));
    ("os_version",
      _ToNonEmptyStrOrNone (Platform.GetOSVersionName (Browser.platform (browser env))));
    ("os_version_detail_string",
      _ToNonEmptyStrOrNone
        (Platform.GetOSVersionDetailString (Browser.platform (browser env))));
    ("driver_version", _ToNonEmptyStrOrNone (ImageParameters.driver_version p));
    ("driver_vendor", _ToNonEmptyStrOrNone (ImageParameters.driver_vendor p));
    ("combined_hardware_identifier", _GetCombinedHardwareIdentifier p)
  ] in
  if _GracePeriodActive (today env) page
  then <["ignore" := "1"]> gpu_keys
  else gpu_keys.

Lemma GetImageParameters_cached env page st l :
  _image_parameters st = Some l ->
  GetImageParameters env page st = (Ok (Some l), st).
Proof.
  intros H. destruct st as [h c lg]. simpl in H. subst c. reflexivity.
Qed.

Lemma GetImageParameters_fresh env page st system_info gpu device :
  _image_parameters st = None ->
  reports env system_info gpu device ->
  GetImageParameters env page st =
  match identity_source device page with
  | Some f =>
      (Ok (Some (length (heap st))),
       State (heap st ++ [common_fields gpu system_info device (f ImageParameters.init)])
             (Some (length (heap st))) (log st))
  | None =>
      (Raise (Exception "GPU device information was incomplete"),
       State (heap st ++ [ImageParameters.init]) (Some (length (heap st))) (log st))
  end.
Proof.
  intros Hcache Hrep.
  unfold GetImageParameters. unfold bind at 1.
  unfold get_cls_image_parameters at 1. rewrite Hcache.
  unfold bind. rewrite (_ComputeGpuInfo_fresh _ _ _ _ _ _ Hcache Hrep).
  destruct (identity_source device page); reflexivity.
Qed.

Lemma GetGoldJsonKeys_step env page st st1 l p :
  GetImageParameters env page st = (Ok (Some l), st1) ->
  heap st1 !! l = Some p ->
  GetGoldJsonKeys env page st =
  match strip_angle_revision p with
  | Ok p' =>
      (Ok (key_set env page p'),
       State (<[l := p']> (heap st1)) (_image_parameters st1) (log st1))
  | Raise e => (Raise e, st1)
  end.
Proof.
  intros Hget Hl. unfold GetGoldJsonKeys.
  rewrite (bind_ok _ _ _ _ _ Hget).
  unfold _StripAngleRevisionFromDriver.
  unfold bind at 1. unfold bind at 1. rewrite (deref_cached _ _ _ Hl).
  destruct (strip_angle_revision p) as [p'|e]; [|reflexivity].
  rewrite (update_cached _ _ _ _ Hl).
  unfold bind, deref. cbn [heap _image_parameters log].
  rewrite list_lookup_insert_eq by (eapply lookup_lt_Some; exact Hl).
  unfold key_set, ret.
  destruct (_GracePeriodActive (today env) page); reflexivity.
Qed.

Lemma GetGoldJsonKeys_cached env page st l p :
  _image_parameters st = Some l ->
  heap st !! l = Some p ->
  GetGoldJsonKeys env page st =
  match strip_angle_revision p with
  | Ok p' =>
      (Ok (key_set env page p'), State (<[l := p']> (heap st)) (Some l) (log st))
  | Raise e => (Raise e, st)
  end.
Proof.
  intros Hc Hl.
  rewrite (GetGoldJsonKeys_step env page st st l p
             (GetImageParameters_cached env page st l Hc) Hl).
  rewrite Hc. reflexivity.
Qed.

Lemma GetGoldJsonKeys_fresh env page st system_info gpu device :
  _image_parameters st = None ->
  reports env system_info gpu device ->
  GetGoldJsonKeys env page st =
  match identity_source device page with
  | Some f =>
      match strip_angle_revision
              (common_fields gpu system_info device (f ImageParameters.init)) with
      | Ok p' =>
          (Ok (key_set env page p'),
           State (heap st ++ [p']) (Some (length (heap st))) (log st))
      | Raise e =>
          (Raise e,
           State (heap st ++ [common_fields gpu system_info device (f ImageParameters.init)])
                 (Some (length (heap st))) (log st))
      end
  | None =>
      (Raise (Exception "GPU device information was incomplete"),
       State (heap st ++ [ImageParameters.init]) (Some (length (heap st))) (log st))
  end.
Proof.
  intros Hcache Hrep.
  pose proof (GetImageParameters_fresh env page st _ _ _ Hcache Hrep) as Hget.
  destruct (identity_source device page) as [f|].
  - erewrite GetGoldJsonKeys_step; [|exact Hget|].
    2:{ cbn [heap]. apply list_lookup_middle. reflexivity. }
    destruct (strip_angle_revision _); [|reflexivity].
    cbn [heap _image_parameters log].
    rewrite insert_app_r_alt by lia. rewrite Nat.sub_diag. reflexivity.
  - unfold GetGoldJsonKeys. rewrite (bind_raise _ _ _ _ _ Hget). reflexivity.
Qed.

(** Whatever the state, a successful call returns the key set of the object
    it leaves in the cache, and no call touches the log or raises the
    comparison-failure exception. *)
Lemma GetGoldJsonKeys_result env page st :
  (exists p' st',
     GetGoldJsonKeys env page st = (Ok (key_set env page p'), st') /\
     stored st' p' /\ log st' = log st /\ strip_angle_revision p' = Ok p') \/
  (exists e st',
     GetGoldJsonKeys env page st = (Raise e, st') /\ log st' = log st /\
     e <> Exception "goldctl command failed, see above for details").
Proof.
  destruct (_image_parameters st) as [l|] eqn:Hc.
  - destruct (heap st !! l) as [p|] eqn:Hl.
    + rewrite (GetGoldJsonKeys_cached env page st l p Hc Hl).
      destruct (strip_angle_revision p) as [p'|e] eqn:Hs.
      * left. exists p', (State (<[l := p']> (heap st)) (Some l) (log st)).
        split; [reflexivity|]. split; [|split].
        -- exists l. split; [reflexivity|]. cbn [heap].
           apply list_lookup_insert_eq. eapply lookup_lt_Some; exact Hl.
        -- reflexivity.
        -- exact (strip_angle_revision_twice _ _ Hs).
      * right. exists e, st. split; [reflexivity|]. split; [reflexivity|].
        exact (strip_angle_revision_raises _ _ Hs).
    + right. exists (TypeError "dangling reference"), st.
      split; [|split; [reflexivity | discriminate]].
      unfold GetGoldJsonKeys.
      rewrite (bind_ok _ _ _ _ _ (GetImageParameters_cached env page st l Hc)).
      unfold _StripAngleRevisionFromDriver, bind, deref. rewrite Hl. reflexivity.
  - destruct (Browser.GetSystemInfo (browser env)) as [system_info|] eqn:Hsys.
    2:{ right. exists (Exception "System info must be supported by the browser"), st.
        split; [|split; [reflexivity | discriminate]].
        destruct st as [h c lg]. simpl in Hc. subst c.
        unfold GetGoldJsonKeys, GetImageParameters, _ComputeGpuInfo, bind,
          get_cls_image_parameters. cbn [_image_parameters].
        rewrite Hsys. reflexivity. }
    destruct (SystemInfo.gpu system_info) as [gpu|] eqn:Hgpu.
    2:{ right. exists (Exception "GPU information was absent"), st.
        split; [|split; [reflexivity | discriminate]].
        destruct st as [h c lg]. simpl in Hc. subst c.
        unfold GetGoldJsonKeys, GetImageParameters, _ComputeGpuInfo, bind,
          get_cls_image_parameters. cbn [_image_parameters].
        rewrite Hsys, Hgpu. reflexivity. }
    destruct (GPUInfo.devices gpu) as [|device rest] eqn:Hdev.
    { right. exists (IndexError "list index out of range"), st.
      split; [|split; [reflexivity | discriminate]].
      destruct st as [h c lg]. simpl in Hc. subst c.
      unfold GetGoldJsonKeys, GetImageParameters, _ComputeGpuInfo, bind,
        get_cls_image_parameters. cbn [_image_parameters].
      rewrite Hsys, Hgpu, Hdev. reflexivity. }
    assert (Hrep : reports env system_info gpu device).
    { repeat split; [exact Hsys | exact Hgpu | rewrite Hdev; reflexivity]. }
    rewrite (GetGoldJsonKeys_fresh env page st _ _ _ Hc Hrep).
    destruct (identity_source device page) as [f|].
    + destruct (strip_angle_revision _) as [p'|e] eqn:Hs.
      * left. eexists p', _. split; [reflexivity|]. split; [|split].
        -- exists (length (heap st)). split; [reflexivity|]. cbn [heap].
           apply list_lookup_middle. reflexivity.
        -- reflexivity.
        -- exact (strip_angle_revision_twice _ _ Hs).
      * right. eexists e, _. split; [reflexivity|]. split; [reflexivity|].
        exact (strip_angle_revision_raises _ _ Hs).
    + right. eexists _, _. split; [reflexivity|].
      split; [reflexivity | discriminate].
Qed.

(** ** Hexadecimal rendering *)


Fixpoint all_chars (P : ascii -> bool) (s : string) : bool :=
  match s with
  | EmptyString => true
  | String c s' => P c && all_chars P s'
  end.





Lemma _ToHex_decodes n : HexString.to_Z (_ToHex n) = n.
Proof. apply HexString.to_Z_of_Z. Qed.


Lemma _ToHex_zero n : _ToHex n = "0x0" -> n = 0.
Proof.
  intros H. rewrite <- (_ToHex_decodes n), H. reflexivity.
Qed.

Example hex_intel : _ToHex 32902 = "0x8086".
Proof. reflexivity. Qed.

(** ** What presence means to the if/elif chain *)

Definition ids_present (device : GPUDevice.t) : bool :=
  truthy_int (GPUDevice.vendor_id device) && truthy_int (GPUDevice.device_id device).

Definition strings_present (device : GPUDevice.t) : bool :=
  truthy_str (GPUDevice.vendor_string device)
  && truthy_str (GPUDevice.device_string device).

Lemma truthy_int_iff o : truthy_int o = true <-> exists z, o = Some z /\ z <> 0.
Proof.
  destruct o as [z|]; simpl.
  - rewrite negb_true_iff, Z.eqb_neq.
    split; [eauto | intros (z' & [= <-] & H); exact H].
  - split; [discriminate | intros (z & [=] & _)].
Qed.

Lemma truthy_str_iff o : truthy_str o = true <-> exists s, o = Some s /\ s <> "".
Proof.
  destruct o as [s|]; simpl.
  - rewrite negb_true_iff, String.eqb_neq.
    split; [eauto | intros (s' & [= <-] & H); exact H].
  - split; [discriminate | intros (s & [=] & _)].
Qed.

Lemma ids_present_iff device :
  ids_present device = true <->
  exists v d,
    GPUDevice.vendor_id device = Some v /\ GPUDevice.device_id device = Some d /\
    v <> 0 /\ d <> 0.
Proof.
  unfold ids_present. rewrite andb_true_iff, !truthy_int_iff.
  split.
  - intros [(v & Hv & Hv0) (d & Hd & Hd0)]. exists v, d. auto.
  - intros (v & d & Hv & Hd & Hv0 & Hd0). split; eauto.
Qed.

Lemma strings_present_iff device :
  strings_present device = true <->
  exists vs ds,
    GPUDevice.vendor_string device = Some vs /\
    GPUDevice.device_string device = Some ds /\ vs <> "" /\ ds <> "".
Proof.
  unfold strings_present. rewrite andb_true_iff, !truthy_str_iff.
  split.
  - intros [(v & Hv & Hv0) (d & Hd & Hd0)]. exists v, d. auto.
  - intros (v & d & Hv & Hd & Hv0 & Hd0). split; eauto.
Qed.

(** The four fields the chain chooses between. *)
Definition identity_fields (p : ImageParameters.t)
  : option Z * option Z * option string * option string :=
  (ImageParameters.vendor_id p, ImageParameters.device_id p,
   ImageParameters.vendor_string p, ImageParameters.device_string p).

(** [_ComputeGpuInfo] returns normally and leaves [p] in the cache. *)
Definition computed (env : Env) (page : Page.t) (st : state)
    (p : ImageParameters.t) : Prop :=
  exists st', _ComputeGpuInfo env page st = (Ok tt, st') /\ stored st' p.

Lemma computed_fresh env page st system_info gpu device f :
  _image_parameters st = None ->
  reports env system_info gpu device ->
  identity_source device page = Some f ->
  computed env page st (common_fields gpu system_info device (f ImageParameters.init)).
Proof.
  intros Hfresh Hrep Hsrc. eexists. split.
  - rewrite (_ComputeGpuInfo_fresh _ _ _ _ _ _ Hfresh Hrep), Hsrc. reflexivity.
  - exists (length (heap st)). split; [reflexivity|].
    cbn [heap]. apply list_lookup_middle. reflexivity.
Qed.

(** ** The identity entries of the key set *)

(** The four identity entries of an emitted key set. *)
Definition identity_keys (keys : gmap string string)
  : option string * option string * option string * option string :=
  (keys !! "vendor_id", keys !! "device_id",
   keys !! "vendor_string", keys !! "device_string").

Lemma key_set_identity env page p :
  identity_keys (key_set env page p) =
  (Some (_ToHexOrNone (ImageParameters.vendor_id p)),
   Some (_ToHexOrNone (ImageParameters.device_id p)),
   Some (_ToNonEmptyStrOrNone (ImageParameters.vendor_string p)),
   Some (_ToNonEmptyStrOrNone (ImageParameters.device_string p))).
Proof.
  unfold identity_keys, key_set, dict_of. cbn [fold_left fst snd].
  destruct (_GracePeriodActive _ _); vm_compute; reflexivity.
Qed.

Lemma key_set_ignore env page p :
  key_set env page p !! "ignore" =
  if _GracePeriodActive (today env) page then Some "1" else None.
Proof.
  unfold key_set, dict_of. cbn [fold_left fst snd].
  destruct (_GracePeriodActive _ _); vm_compute; reflexivity.
Qed.

Lemma strip_angle_revision_identity p p' :
  strip_angle_revision p = Ok p' -> identity_fields p' = identity_fields p.
Proof.
  intros H. rewrite (strip_angle_revision_frame p p' H). reflexivity.
Qed.

Lemma GetGoldJsonKeys_fresh_keys env page st system_info gpu device f keys st' :
  _image_parameters st = None ->
  reports env system_info gpu device ->
  identity_source device page = Some f ->
  GetGoldJsonKeys env page st = (Ok keys, st') ->
  exists p',
    keys = key_set env page p' /\
    identity_fields p' = identity_fields (f ImageParameters.init).
Proof.
  intros Hfresh Hrep Hsrc.
  rewrite (GetGoldJsonKeys_fresh _ _ _ _ _ _ Hfresh Hrep), Hsrc.
  destruct (strip_angle_revision _) as [p'|e] eqn:Hs; [|discriminate].
  intros [= <- <-]. exists p'. split; [reflexivity|].
  rewrite (strip_angle_revision_identity _ _ Hs). reflexivity.
Qed.

Section IdentityBranches.
Variables (env : Env) (page : Page.t) (st : state).
Variables (system_info : SystemInfo.t) (gpu : GPUInfo.t) (device : GPUDevice.t).
Hypothesis Hfresh : _image_parameters st = None.
Hypothesis Hrep : reports env system_info gpu device.

Lemma ids_branch :
  ids_present device = true ->
  exists v d p,
    GPUDevice.vendor_id device = Some v /\ GPUDevice.device_id device = Some d /\
    computed env page st p /\
    identity_fields p = (Some v, Some d, None, None) /\
    HexString.to_Z (_ToHexOrNone (ImageParameters.vendor_id p)) = v /\
    HexString.to_Z (_ToHexOrNone (ImageParameters.device_id p)) = d /\
    forall keys st',
      GetGoldJsonKeys env page st = (Ok keys, st') ->
      identity_keys keys =
      (Some (_ToHex v), Some (_ToHex d), Some "None", Some "None").
Proof.
  intros Hids.
  assert (Hsrc : identity_source device page = Some (fun p =>
    ImageParameters.set_device_id (GPUDevice.device_id device)
      (ImageParameters.set_vendor_id (GPUDevice.vendor_id device) p))).
  { unfold identity_source. fold (ids_present device). rewrite Hids. reflexivity. }
  apply ids_present_iff in Hids as (v & d & Hv & Hd & _ & _).
  exists v, d. eexists. split; [exact Hv|]. split; [exact Hd|].
  split; [exact (computed_fresh _ _ _ _ _ _ _ Hfresh Hrep Hsrc)|].
  unfold identity_fields, common_fields. cbn. rewrite Hv, Hd. cbn.
  split; [reflexivity|].
  split; [apply _ToHex_decodes|]. split; [apply _ToHex_decodes|].
  intros keys st' Hk.
  destruct (GetGoldJsonKeys_fresh_keys _ _ _ _ _ _ _ _ _ Hfresh Hrep Hsrc Hk)
    as (p' & -> & Hp').
  rewrite key_set_identity. unfold identity_fields in Hp'. cbn in Hp'.
  injection Hp' as -> -> -> ->. rewrite Hv, Hd. reflexivity.
Qed.

Lemma strings_branch :
  ids_present device = false -> strings_present device = true ->
  exists vs ds p,
    GPUDevice.vendor_string device = Some vs /\
    GPUDevice.device_string device = Some ds /\
    computed env page st p /\
    identity_fields p = (None, None, Some vs, Some ds) /\
    forall keys st',
      GetGoldJsonKeys env page st = (Ok keys, st') ->
      identity_keys keys = (Some "None", Some "None", Some vs, Some ds).
Proof.
  intros Hids Hstr.
  assert (Hsrc : identity_source device page = Some (fun p =>
    ImageParameters.set_device_string (GPUDevice.device_string device)
      (ImageParameters.set_vendor_string (GPUDevice.vendor_string device) p))).
  { unfold identity_source. fold (ids_present device) (strings_present device).
    rewrite Hids, Hstr. reflexivity. }
  apply strings_present_iff in Hstr as (vs & ds & Hv & Hd & Hv0 & Hd0).
  exists vs, ds. eexists. split; [exact Hv|]. split; [exact Hd|].
  split; [exact (computed_fresh _ _ _ _ _ _ _ Hfresh Hrep Hsrc)|].
  unfold identity_fields, common_fields. cbn. rewrite Hv, Hd.
  split; [reflexivity|].
  intros keys st' Hk.
  destruct (GetGoldJsonKeys_fresh_keys _ _ _ _ _ _ _ _ _ Hfresh Hrep Hsrc Hk)
    as (p' & -> & Hp').
  rewrite key_set_identity. unfold identity_fields in Hp'. cbn in Hp'.
  injection Hp' as -> -> -> ->. rewrite Hv, Hd. cbn.
  apply String.eqb_neq in Hv0, Hd0. rewrite Hv0, Hd0. reflexivity.
Qed.

Lemma sentinel_branch :
  ids_present device = false -> strings_present device = false ->
  Page.gpu_process_disabled page = true ->
  exists p,
    computed env page st p /\
    identity_fields p = (Some 65535, Some 65535, None, None) /\
    forall keys st',
      GetGoldJsonKeys env page st = (Ok keys, st') ->
      identity_keys keys =
      (Some "0xffff", Some "0xffff", Some "None", Some "None").
Proof.
  intros Hids Hstr Hdis.
  assert (Hsrc : identity_source device page = Some (fun p =>
    ImageParameters.set_device_id (Some 65535)
      (ImageParameters.set_vendor_id (Some 65535) p))).
  { unfold identity_source. fold (ids_present device) (strings_present device).
    rewrite Hids, Hstr, Hdis. reflexivity. }
  eexists.
  split; [exact (computed_fresh _ _ _ _ _ _ _ Hfresh Hrep Hsrc)|].
  split; [reflexivity|].
  intros keys st' Hk.
  destruct (GetGoldJsonKeys_fresh_keys _ _ _ _ _ _ _ _ _ Hfresh Hrep Hsrc Hk)
    as (p' & -> & Hp').
  rewrite key_set_identity. unfold identity_fields in Hp'. cbn in Hp'.
  injection Hp' as -> -> -> ->. reflexivity.
Qed.

Lemma incomplete_branch :
  ids_present device = false -> strings_present device = false ->
  Page.gpu_process_disabled page = false ->
  (exists st',
     _ComputeGpuInfo env page st =
     (Raise (Exception "GPU device information was incomplete"), st')) /\
  (exists st',
     GetGoldJsonKeys env page st =
     (Raise (Exception "GPU device information was incomplete"), st')).
Proof.
  intros Hids Hstr Hdis.
  assert (Hsrc : identity_source device page = None).
  { unfold identity_source. fold (ids_present device) (strings_present device).
    rewrite Hids, Hstr, Hdis. reflexivity. }
  rewrite (_ComputeGpuInfo_fresh _ _ _ _ _ _ Hfresh Hrep).
  rewrite (GetGoldJsonKeys_fresh _ _ _ _ _ _ Hfresh Hrep).
  rewrite Hsrc. eauto.
Qed.
End IdentityBranches.

(** ** When a first build produces a key set *)

Lemma GetGoldJsonKeys_fresh_emits env page st system_info gpu device p vendor :
  _image_parameters st = None ->
  reports env system_info gpu device ->
  computed env page st p ->
  GPUDevice.driver_vendor device = Some vendor ->
  exists keys st', GetGoldJsonKeys env page st = (Ok keys, st').
Proof.
  intros Hfresh Hrep (st1 & Hrun & _) Hvendor.
  rewrite (_ComputeGpuInfo_fresh _ _ _ _ _ _ Hfresh Hrep) in Hrun.
  rewrite (GetGoldJsonKeys_fresh _ _ _ _ _ _ Hfresh Hrep).
  destruct (identity_source device page) as [f|]; [|discriminate].
  destruct (strip_angle_revision_total
              (common_fields gpu system_info device (f ImageParameters.init))
              vendor Hvendor) as [p' Hp'].
  rewrite Hp'. eauto.
Qed.

Lemma GetGoldJsonKeys_fresh_no_vendor env page st system_info gpu device :
  _image_parameters st = None ->
  reports env system_info gpu device ->
  GPUDevice.driver_vendor device = None ->
  exists e st',
    GetGoldJsonKeys env page st = (Raise e, st') /\
    (e = Exception "GPU device information was incomplete" \/
     e = TypeError "argument of type 'NoneType' is not iterable").
Proof.
  intros Hfresh Hrep Hvendor.
  rewrite (GetGoldJsonKeys_fresh _ _ _ _ _ _ Hfresh Hrep).
  destruct (identity_source device page) as [f|]; [|eauto 6].
  unfold strip_angle_revision.
  replace (ImageParameters.driver_vendor
             (common_fields gpu system_info device (f ImageParameters.init)))
    with (GPUDevice.driver_vendor device) by reflexivity.
  rewrite Hvendor. eauto 6.
Qed.

(** C1: on a first computation the identity source is chosen by a fixed
    precedence.  Presence is what the chain tests: an id is present when it
    is a non-zero number, a string when it is non-empty.
    - Both ids present: they are stored (the strings stay [None]) and they
      render as hexadecimal that decodes back to the ids.
    - Otherwise, both strings present: the strings are stored and the ids
      stay [None].
    - Otherwise, GPU process disabled: both ids are the sentinel 65535,
      rendered "0xffff".
    - Otherwise the call raises "GPU device information was incomplete".
    In each of the first three cases the key-set build returns a key set
    whenever the device's driver vendor is a string, and that key set (like
    any the build returns) carries the chosen source: the hexadecimal ids
    with "None" for both strings, or the strings with "None" for both ids.
    With no driver vendor the build raises and no key set is emitted. *)
Theorem identity_source_precedence (env : Env) (page : Page.t) (st : state)
    (system_info : SystemInfo.t) (gpu : GPUInfo.t) (device : GPUDevice.t)
    (Hfresh : _image_parameters st = None)
    (Hrep : reports env system_info gpu device) :
  (ids_present device = true ->
   exists v d p,
     GPUDevice.vendor_id device = Some v /\ GPUDevice.device_id device = Some d /\
     computed env page st p /\
     identity_fields p = (Some v, Some d, None, None) /\
     HexString.to_Z (_ToHexOrNone (ImageParameters.vendor_id p)) = v /\
     HexString.to_Z (_ToHexOrNone (ImageParameters.device_id p)) = d /\
     (forall keys st',
        GetGoldJsonKeys env page st = (Ok keys, st') ->
        identity_keys keys =
        (Some (_ToHex v), Some (_ToHex d), Some "None", Some "None")) /\
     (forall vendor,
        GPUDevice.driver_vendor device = Some vendor ->
        exists keys st',
          GetGoldJsonKeys env page st = (Ok keys, st') /\
          identity_keys keys =
          (Some (_ToHex v), Some (_ToHex d), Some "None", Some "None"))) /\
  (ids_present device = false -> strings_present device = true ->
   exists vs ds p,
     GPUDevice.vendor_string device = Some vs /\
     GPUDevice.device_string device = Some ds /\
     computed env page st p /\
     identity_fields p = (None, None, Some vs, Some ds) /\
     (forall keys st',
        GetGoldJsonKeys env page st = (Ok keys, st') ->
        identity_keys keys = (Some "None", Some "None", Some vs, Some ds)) /\
     (forall vendor,
        GPUDevice.driver_vendor device = Some vendor ->
        exists keys st',
          GetGoldJsonKeys env page st = (Ok keys, st') /\
          identity_keys keys = (Some "None", Some "None", Some vs, Some ds))) /\
  (ids_present device = false -> strings_present device = false ->
   Page.gpu_process_disabled page = true ->
   exists p,
     computed env page st p /\
     identity_fields p = (Some 65535, Some 65535, None, None) /\
     (forall keys st',
        GetGoldJsonKeys env page st = (Ok keys, st') ->
        identity_keys keys =
        (Some "0xffff", Some "0xffff", Some "None", Some "None")) /\
     (forall vendor,
        GPUDevice.driver_vendor device = Some vendor ->
        exists keys st',
          GetGoldJsonKeys env page st = (Ok keys, st') /\
          identity_keys keys =
          (Some "0xffff", Some "0xffff", Some "None", Some "None"))) /\
  (ids_present device = false -> strings_present device = false ->
   Page.gpu_process_disabled page = false ->
   (exists st',
      _ComputeGpuInfo env page st =
      (Raise (Exception "GPU device information was incomplete"), st')) /\
   (exists st',
      GetGoldJsonKeys env page st =
      (Raise (Exception "GPU device information was incomplete"), st'))) /\
  (GPUDevice.driver_vendor device = None ->
   exists e st',
     GetGoldJsonKeys env page st = (Raise e, st') /\
     (e = Exception "GPU device information was incomplete" \/
      e = TypeError "argument of type 'NoneType' is not iterable")).
Proof.
  split; [|split; [|split; [|split]]].
  - intros Hids.
    destruct (ids_branch env page st system_info gpu device Hfresh Hrep Hids)
      as (v & d & p & Hv & Hd & Hc & Hf & Hxv & Hxd & Hkeys).
    exists v, d, p.
    split; [exact Hv|]. split; [exact Hd|]. split; [exact Hc|].
    split; [exact Hf|]. split; [exact Hxv|]. split; [exact Hxd|].
    split; [exact Hkeys|].
    intros vendor Hvendor.
    destruct (GetGoldJsonKeys_fresh_emits _ _ _ _ _ _ _ _ Hfresh Hrep Hc Hvendor)
      as (keys & st' & Hk).
    exists keys, st'. split; [exact Hk | exact (Hkeys keys st' Hk)].
  - intros Hids Hstr.
    destruct (strings_branch env page st system_info gpu device Hfresh Hrep
                Hids Hstr)
      as (vs & ds & p & Hv & Hd & Hc & Hf & Hkeys).
    exists vs, ds, p.
    split; [exact Hv|]. split; [exact Hd|]. split; [exact Hc|].
    split; [exact Hf|]. split; [exact Hkeys|].
    intros vendor Hvendor.
    destruct (GetGoldJsonKeys_fresh_emits _ _ _ _ _ _ _ _ Hfresh Hrep Hc Hvendor)
      as (keys & st' & Hk).
    exists keys, st'. split; [exact Hk | exact (Hkeys keys st' Hk)].
  - intros Hids Hstr Hdis.
    destruct (sentinel_branch env page st system_info gpu device Hfresh Hrep
                Hids Hstr Hdis)
      as (p & Hc & Hf & Hkeys).
    exists p. split; [exact Hc|]. split; [exact Hf|]. split; [exact Hkeys|].
    intros vendor Hvendor.
    destruct (GetGoldJsonKeys_fresh_emits _ _ _ _ _ _ _ _ Hfresh Hrep Hc Hvendor)
      as (keys & st' & Hk).
    exists keys, st'. split; [exact Hk | exact (Hkeys keys st' Hk)].
  - intros Hids Hstr Hdis.
    exact (incomplete_branch env page st system_info gpu device
             Hfresh Hrep Hids Hstr Hdis).
  - exact (GetGoldJsonKeys_fresh_no_vendor env page st system_info gpu device
             Hfresh Hrep).
Qed.

Definition intel_system_info : SystemInfo.t :=
  SystemInfo.Make (Some (GPUInfo.Make [intel_device] [])) (Some "model").

Lemma identity_source_precedence_witness :
  exists v d keys st',
    GPUDevice.vendor_id intel_device = Some v /\
    GPUDevice.device_id intel_device = Some d /\
    GetGoldJsonKeys (sample_env intel_device false 1 None) (sample_page None)
      initial_state = (Ok keys, st') /\
    identity_keys keys =
    (Some (_ToHex v), Some (_ToHex d), Some "None", Some "None").
Proof.
  destruct (proj1 (identity_source_precedence
                     (sample_env intel_device false 1 None) (sample_page None)
                     initial_state intel_system_info
                     (GPUInfo.Make [intel_device] []) intel_device
                     eq_refl (conj eq_refl (conj eq_refl eq_refl)))
                  eq_refl)
    as (v & d & p & Hv & Hd & _ & _ & _ & _ & _ & Hemit).
  destruct (Hemit "Google Inc. (ANGLE)" eq_refl) as (keys & st' & Hk & Hid).
  exists v, d, keys, st'. repeat split; assumption.
Defined.

Example ids_win_over_strings :
  (let '(r, _) := GetGoldJsonKeys (sample_env intel_device false 1 None)
                    (sample_page None) initial_state in
   match r with Ok keys => Some (identity_keys keys) | Raise _ => None end)
  = Some (Some "0x8086", Some "0x5912", Some "None", Some "None").
Proof. vm_compute. reflexivity. Qed.

Definition software_device : GPUDevice.t :=
  GPUDevice.Make (Some 0) (Some 0) (Some "") (Some "")
    (Some "") (Some "").

Example software_fallback_sentinel :
  (let '(r, _) := GetGoldJsonKeys (sample_env software_device false 1 None)
                    (Page.Make true None []) initial_state in
   match r with Ok keys => Some (identity_keys keys) | Raise _ => None end)
  = Some (Some "0xffff", Some "0xffff", Some "None", Some "None").
Proof. vm_compute. reflexivity. Qed.

Example incomplete_information :
  fst (GetGoldJsonKeys (sample_env software_device false 1 None)
         (sample_page None) initial_state)
  = Raise (Exception "GPU device information was incomplete").
Proof. vm_compute. reflexivity. Qed.

(** ** Zero ids *)

Lemma zero_id_not_present device :
  GPUDevice.vendor_id device = Some 0 \/ GPUDevice.device_id device = Some 0 ->
  ids_present device = false.
Proof.
  unfold ids_present. intros [H | H]; rewrite H; simpl.
  - reflexivity.
  - apply andb_false_r.
Qed.

(** C10: a device that reports 0 for its vendor id or its device id never
    takes the id branch (which is taken exactly when both ids are numbers
    other than 0).  A first computation then stores the strings, or the
    sentinel ids, or raises the incomplete-information error, and no key
    set emitted for it has "0x0" as vendor_id or device_id. *)
Theorem zero_id_treated_as_absent (env : Env) (page : Page.t) (st : state)
    (system_info : SystemInfo.t) (gpu : GPUInfo.t) (device : GPUDevice.t)
    (Hfresh : _image_parameters st = None)
    (Hrep : reports env system_info gpu device)
    (Hzero : GPUDevice.vendor_id device = Some 0 \/
             GPUDevice.device_id device = Some 0) :
  ids_present device = false /\
  (forall device',
     ids_present device' = true <->
     exists v d,
       GPUDevice.vendor_id device' = Some v /\
       GPUDevice.device_id device' = Some d /\ v <> 0 /\ d <> 0) /\
  ((exists vs ds p,
      GPUDevice.vendor_string device = Some vs /\
      GPUDevice.device_string device = Some ds /\
      computed env page st p /\
      identity_fields p = (None, None, Some vs, Some ds)) \/
   (exists p,
      Page.gpu_process_disabled page = true /\
      computed env page st p /\
      identity_fields p = (Some 65535, Some 65535, None, None)) \/
   (exists st',
      _ComputeGpuInfo env page st =
      (Raise (Exception "GPU device information was incomplete"), st'))) /\
  (forall keys st',
     GetGoldJsonKeys env page st = (Ok keys, st') ->
     keys !! "vendor_id" <> Some "0x0" /\ keys !! "device_id" <> Some "0x0").
Proof.
  pose proof (zero_id_not_present device Hzero) as Hids.
  split; [exact Hids|]. split; [exact ids_present_iff|].
  destruct (strings_present device) eqn:Hstr;
    [|destruct (Page.gpu_process_disabled page) eqn:Hdis].
  - destruct (strings_branch env page st _ _ _ Hfresh Hrep Hids Hstr)
      as (vs & ds & p & Hv & Hd & Hc & Hf & Hkeys).
    split; [left; eauto 10|].
    intros keys st' Hk. specialize (Hkeys keys st' Hk).
    unfold identity_keys in Hkeys. injection Hkeys as -> -> _ _.
    split; discriminate.
  - destruct (sentinel_branch env page st _ _ _ Hfresh Hrep Hids Hstr Hdis)
      as (p & Hc & Hf & Hkeys).
    split; [right; left; eauto|].
    intros keys st' Hk. specialize (Hkeys keys st' Hk).
    unfold identity_keys in Hkeys. injection Hkeys as -> -> _ _.
    split; discriminate.
  - destruct (incomplete_branch env page st _ _ _ Hfresh Hrep Hids Hstr Hdis)
      as [Hc (st1 & Hk1)].
    split; [right; right; exact Hc|].
    intros keys st' Hk. rewrite Hk1 in Hk. discriminate.
Qed.

Definition zero_vendor_device : GPUDevice.t :=
  GPUDevice.Make (Some 0) (Some 22802) (Some "Intel") (Some "HD Graphics 630")
    (Some "27.20.100.8681") (Some "Intel").

Lemma zero_id_treated_as_absent_witness :
  ids_present zero_vendor_device = false /\
  exists vs ds p,
    GPUDevice.vendor_string zero_vendor_device = Some vs /\
    GPUDevice.device_string zero_vendor_device = Some ds /\
    computed (sample_env zero_vendor_device false 1 None) (sample_page None)
      initial_state p /\
    identity_fields p = (None, None, Some vs, Some ds).
Proof.
  split.
  - exact (proj1 (zero_id_treated_as_absent
             (sample_env zero_vendor_device false 1 None) (sample_page None)
             initial_state
             (SystemInfo.Make (Some (GPUInfo.Make [zero_vendor_device] [])) (Some "model"))
             (GPUInfo.Make [zero_vendor_device] []) zero_vendor_device
             eq_refl (conj eq_refl (conj eq_refl eq_refl)) (or_introl eq_refl))).
  - exists "Intel", "HD Graphics 630".
    exists (ImageParameters.Make None None (Some "Intel") (Some "HD Graphics 630")
              true (Some "model") (Some "27.20.100.8681") (Some "Intel")).
    split; [reflexivity|]. split; [reflexivity|].
    split; [|reflexivity].
    eexists. split; [reflexivity|]. exists 0%nat. split; reflexivity.
Defined.

Example zero_vendor_uses_strings :
  (let '(r, _) := GetGoldJsonKeys (sample_env zero_vendor_device false 1 None)
                    (sample_page None) initial_state in
   match r with Ok keys => Some (identity_keys keys) | Raise _ => None end)
  = Some (Some "None", Some "None", Some "Intel", Some "HD Graphics 630").
Proof. vm_compute. reflexivity. Qed.

(** ** The emitted key set *)





Lemma key_set_entries env page p :
  let keys := key_set env page p in
  let platform := Browser.platform (browser env) in
  keys !! "vendor_id" = Some (_ToHexOrNone (ImageParameters.vendor_id p)) /\
  keys !! "device_id" = Some (_ToHexOrNone (ImageParameters.device_id p)) /\
  keys !! "vendor_string" =
    Some (_ToNonEmptyStrOrNone (ImageParameters.vendor_string p)) /\
  keys !! "device_string" =
    Some (_ToNonEmptyStrOrNone (ImageParameters.device_string p)) /\
  keys !! "msaa" = Some (str_of_bool (ImageParameters.msaa p)) /\
  keys !! "model_name" = Some (_ToNonEmptyStrOrNone (ImageParameters.model_name p)) /\
  keys !! "os" = Some (_ToNonEmptyStrOrNone (Platform.GetOSName platform)) /\
  keys !! "os_version" =
    Some (_ToNonEmptyStrOrNone (Platform.GetOSVersionName platform)) /\
  keys !! "os_version_detail_string" =
    Some (_ToNonEmptyStrOrNone (Platform.GetOSVersionDetailString platform)) /\
  keys !! "driver_version" =
    Some (_ToNonEmptyStrOrNone (ImageParameters.driver_version p)) /\
  keys !! "driver_vendor" =
    Some (_ToNonEmptyStrOrNone (ImageParameters.driver_vendor p)) /\
  keys !! "combined_hardware_identifier" = Some (_GetCombinedHardwareIdentifier p).
Proof.
  unfold key_set, dict_of. cbn [fold_left fst snd].
  destruct (_GracePeriodActive _ _); vm_compute; repeat split.
Qed.

Lemma GetGoldJsonKeys_ok env page st keys st' :
  GetGoldJsonKeys env page st = (Ok keys, st') ->
  exists p, keys = key_set env page p /\ stored st' p /\ log st' = log st.
Proof.
  intros H.
  destruct (GetGoldJsonKeys_result env page st)
    as [(p & st1 & Hk & Hst & Hlog & _) | (e & st1 & Hk & _)];
    rewrite Hk in H; [|discriminate].
  injection H as <- <-. eauto.
Qed.

(** C8: a key set built while the page's grace period is active maps
    'ignore' to '1'; one built while it is not active has no 'ignore'
    entry. *)
Theorem ignore_marker_iff_grace_period (env : Env) (page : Page.t)
    (st st' : state) (keys : gmap string string)
    (Hbuilt : GetGoldJsonKeys env page st = (Ok keys, st')) :
  (_GracePeriodActive (today env) page = true -> keys !! "ignore" = Some "1") /\
  (_GracePeriodActive (today env) page = false -> keys !! "ignore" = None).
Proof.
  destruct (GetGoldJsonKeys_ok _ _ _ _ _ Hbuilt) as (p & -> & _ & _).
  rewrite key_set_ignore.
  split; intros ->; reflexivity.
Qed.

(** The first key-set build on the sample bot. *)
Definition intel_params : ImageParameters.t :=
  ImageParameters.Make (Some 32902) (Some 22802) None None true
    (Some "model") (Some "2.1.0") (Some "Google Inc. (ANGLE)").

Definition intel_state : state := State [intel_params] (Some 0%nat) [].

Lemma intel_first_build bypass status link grace_period_end :
  GetGoldJsonKeys (sample_env intel_device bypass status link)
    (sample_page grace_period_end) initial_state =
  (Ok (key_set (sample_env intel_device bypass status link)
         (sample_page grace_period_end) intel_params),
   intel_state).
Proof.
  rewrite (GetGoldJsonKeys_fresh (sample_env intel_device bypass status link)
             (sample_page grace_period_end) initial_state intel_system_info
             (GPUInfo.Make [intel_device] []) intel_device eq_refl
             (conj eq_refl (conj eq_refl eq_refl))).
  reflexivity.
Qed.

Lemma ignore_marker_iff_grace_period_witness :
  key_set (sample_env intel_device false 1 None)
    (sample_page (Some (Date 2024 3 1))) intel_params !! "ignore" = Some "1".
Proof.
  exact (proj1 (ignore_marker_iff_grace_period
                  (sample_env intel_device false 1 None)
                  (sample_page (Some (Date 2024 3 1)))
                  initial_state intel_state _
                  (intel_first_build false 1 None (Some (Date 2024 3 1))))
               eq_refl).
Defined.



Example empty_detail_string_renders_None :
  key_set (sample_env intel_device false 1 None) (sample_page None) intel_params
    !! "os_version_detail_string" = Some "None".
Proof. vm_compute. reflexivity. Qed.

Example combined_hardware_identifier_example :
  _GetCombinedHardwareIdentifier intel_params =
  "vendor_id:0x8086, device_id:0x5912, device_string:None".
Proof. reflexivity. Qed.

(** ** The cached identity object across calls *)






(** ** Outcome dispatch *)

(** The outcome kinds of the dispatch table. *)
Module Outcome.
Inductive t : Type :=
  | PASS
  | AUTH_FAILURE
  | INIT_FAILURE
  | REMOTE_MISMATCH
  | LOCAL_MISMATCH
  | LOCAL_DIFF_ERROR
  | UNKNOWN.
End Outcome.

(** The kind of a status, by the order of the if/elif chain. *)
Definition outcome_kind (status_codes : StatusCodes.t) (status : Z) : Outcome.t :=
  if status =? 0 then Outcome.PASS
  else if status =? StatusCodes.AUTH_FAILURE status_codes then Outcome.AUTH_FAILURE
  else if status =? StatusCodes.INIT_FAILURE status_codes then Outcome.INIT_FAILURE
  else if status =? StatusCodes.COMPARISON_FAILURE_REMOTE status_codes
  then Outcome.REMOTE_MISMATCH
  else if status =? StatusCodes.COMPARISON_FAILURE_LOCAL status_codes
  then Outcome.LOCAL_MISMATCH
  else if status =? StatusCodes.LOCAL_DIFF_FAILURE status_codes
  then Outcome.LOCAL_DIFF_ERROR
  else Outcome.UNKNOWN.

Definition local_diff_links (gold_session : Session.t) (image_name : string)
  : list event :=
  [LoggingError "Generated image: %s"
     [PStr (str_or (Session.GetGivenImageLink gold_session image_name)
                   "Unable to retrieve link")];
   LoggingError "Closest image: %s"
     [PStr (str_or (Session.GetClosestImageLink gold_session image_name)
                   "Unable to retrieve link")];
   LoggingError "Diff image: %s"
     [PStr (str_or (Session.GetDiffImageLink gold_session image_name)
                   "Unable to retrieve link")]].

(** The dispatch table: what is logged or linked for each outcome kind.
    It refers neither to the command line options nor to the grace period. *)
Definition diagnostics (kind : Outcome.t) (gold_session : Session.t)
    (is_tryjob : bool) (image_name : string) (status : Z)
    (error : option string) : list event :=
  match kind with
  | Outcome.PASS => []
  | Outcome.AUTH_FAILURE =>
      [LoggingError "Gold authentication failed with output %s" [of_opt_str error]]
  | Outcome.INIT_FAILURE =>
      [LoggingError "Gold initialization failed with output %s" [of_opt_str error]]
  | Outcome.REMOTE_MISMATCH =>
      let triage_link := (Session.GetTriageLinks gold_session image_name).2 in
      if truthy_str triage_link then
        [CreateLink
           (if is_tryjob then "triage_link_for_entire_cl" else "gold_triage_link")
           (of_opt_str triage_link)]
      else
        [LoggingError "Failed to get triage link for %s, raw output: %s"
           [PStr image_name; of_opt_str error];
         LoggingError "Reason for no triage link: %s"
           [PStr (Session.GetTriageLinkOmissionReason gold_session image_name)]]
  | Outcome.LOCAL_MISMATCH =>
      LoggingError "Local comparison failed. Local diff files:" []
      :: local_diff_links gold_session image_name
  | Outcome.LOCAL_DIFF_ERROR =>
      LoggingError
        "Local comparison failed and an error occurred during diff generation: %s"
        [of_opt_str error]
      :: LoggingError "Local diff files:" []
      :: local_diff_links gold_session image_name
  | Outcome.UNKNOWN =>
      [LoggingError "Given unhandled SkiaGoldSession StatusCode %s with error %s"
         [PInt status; of_opt_str error]]
  end.

Lemma diagnostics_not_nil kind gold_session is_tryjob image_name status error :
  kind <> Outcome.PASS ->
  diagnostics kind gold_session is_tryjob image_name status error <> [].
Proof.
  destruct kind; simpl; try discriminate; [congruence|].
  destruct (truthy_str _); discriminate.
Qed.

Lemma outcome_kind_PASS status_codes status :
  outcome_kind status_codes status = Outcome.PASS <-> status = 0.
Proof.
  unfold outcome_kind. destruct (Z.eqb_spec status 0) as [-> | Hne].
  - split; reflexivity.
  - split; [|contradiction].
    repeat (destruct (_ =? _); [discriminate|]). discriminate.
Qed.

Definition GOLD_FAILURE : exn :=
  Exception "goldctl command failed, see above for details".

(** The comparison the upload runs once the key set is built. *)
Definition comparison (env : Env) (image_name : string) (screenshot : list Z)
    (page : Page.t) (keys : gmap string string) : Z * option string :=
  Session.RunComparison (GetSkiaGoldSession env keys SKIA_GOLD_CORPUS)
    image_name screenshot (Page.matching_algorithm_cmdline page)
    (negb (GoldProperties.local_pixel_tests (GetSkiaGoldProperties env)
           || GoldProperties.no_luci_auth (GetSkiaGoldProperties env))).

Lemma emit_run e st :
  emit e st = (Ok tt, State (heap st) (_image_parameters st) (log st ++ [e])).
Proof. reflexivity. Qed.

Lemma _OutputLocalDiffFiles_run gold_session image_name st :
  _OutputLocalDiffFiles gold_session image_name st =
  (Ok tt, State (heap st) (_image_parameters st)
            (log st ++ local_diff_links gold_session image_name)).
Proof.
  unfold _OutputLocalDiffFiles, local_diff_links, logging_error, bind, emit.
  cbn [heap _image_parameters log]. rewrite <- !app_assoc. reflexivity.
Qed.

Lemma _UploadTestResultToSkiaGold_run env image_name screenshot page st keys st1
    status error :
  GetGoldJsonKeys env page st = (Ok keys, st1) ->
  comparison env image_name screenshot page keys = (status, error) ->
  _UploadTestResultToSkiaGold env image_name screenshot page st =
  if status =? 0 then (Ok tt, st1)
  else
    (if _ShouldReportGoldFailure env page then Raise GOLD_FAILURE else Ok tt,
     State (heap st1) (_image_parameters st1)
       (log st1 ++
        diagnostics (outcome_kind (SessionStatusCodes env) status)
          (GetSkiaGoldSession env keys SKIA_GOLD_CORPUS)
          (GoldProperties.IsTryjobRun (GetSkiaGoldProperties env))
          image_name status error)).
Proof.
  intros Hkeys Hrun. unfold comparison in Hrun.
  unfold _UploadTestResultToSkiaGold.
  rewrite (bind_ok _ _ _ _ _ Hkeys). cbv zeta. rewrite Hrun.
  unfold outcome_kind.
  destruct (status =? 0); [reflexivity|].
  unfold bind at 1.
  destruct (status =? StatusCodes.AUTH_FAILURE _).
  { unfold logging_error. rewrite emit_run.
    destruct (_ShouldReportGoldFailure env page); reflexivity. }
  destruct (status =? StatusCodes.INIT_FAILURE _).
  { unfold logging_error. rewrite emit_run.
    destruct (_ShouldReportGoldFailure env page); reflexivity. }
  destruct (status =? StatusCodes.COMPARISON_FAILURE_REMOTE _).
  { cbn [diagnostics].
    destruct (Session.GetTriageLinks _ image_name) as [public triage_link].
    cbn [snd].
    destruct (truthy_str triage_link); cbn [negb].
    - destruct (GoldProperties.IsTryjobRun _); rewrite emit_run;
        destruct (_ShouldReportGoldFailure env page); reflexivity.
    - unfold logging_error, bind. rewrite !emit_run.
      cbn [heap _image_parameters log]. rewrite <- app_assoc.
      destruct (_ShouldReportGoldFailure env page); reflexivity. }
  destruct (status =? StatusCodes.COMPARISON_FAILURE_LOCAL _).
  { unfold logging_error, bind. rewrite emit_run, _OutputLocalDiffFiles_run.
    cbn [heap _image_parameters log diagnostics]. rewrite <- app_assoc.
    destruct (_ShouldReportGoldFailure env page); reflexivity. }
  destruct (status =? StatusCodes.LOCAL_DIFF_FAILURE _).
  { unfold logging_error, bind. rewrite !emit_run, _OutputLocalDiffFiles_run.
    cbn [heap _image_parameters log diagnostics]. rewrite <- !app_assoc.
    destruct (_ShouldReportGoldFailure env page); reflexivity. }
  unfold logging_error. rewrite emit_run.
  destruct (_ShouldReportGoldFailure env page); reflexivity.
Qed.

Lemma _UploadTestResultToSkiaGold_builder_raises env image_name screenshot page
    st e st1 :
  GetGoldJsonKeys env page st = (Raise e, st1) ->
  _UploadTestResultToSkiaGold env image_name screenshot page st = (Raise e, st1).
Proof.
  intros H. unfold _UploadTestResultToSkiaGold.
  rewrite (bind_raise _ _ _ _ _ H). reflexivity.
Qed.

Lemma _ShouldReportGoldFailure_bypass env page :
  Options.no_skia_gold_failure (GetParsedCommandLineOptions env) = true ->
  _ShouldReportGoldFailure env page = false.
Proof. intros H. unfold _ShouldReportGoldFailure. rewrite H. reflexivity. Qed.

Lemma _ShouldReportGoldFailure_surface env page :
  Options.no_skia_gold_failure (GetParsedCommandLineOptions env) = false ->
  _GracePeriodActive (today env) page = false ->
  _ShouldReportGoldFailure env page = true.
Proof. intros H G. unfold _ShouldReportGoldFailure. rewrite H, G. reflexivity. Qed.

(** C2: for a comparison that returned a non-PASS status, with the bypass
    option set the suppression decision is false whatever the grace period
    and the upload returns normally; with the option unset and the grace
    period inactive the decision is true and the upload raises
    "goldctl command failed, see above for details". *)
Theorem suppression_decision (env : Env) (image_name : string)
    (screenshot : list Z) (page : Page.t) (st st1 : state)
    (keys : gmap string string) (status : Z) (error : option string)
    (Hkeys : GetGoldJsonKeys env page st = (Ok keys, st1))
    (Hrun : comparison env image_name screenshot page keys = (status, error))
    (Hfail : status <> 0) :
  (Options.no_skia_gold_failure (GetParsedCommandLineOptions env) = true ->
   _ShouldReportGoldFailure env page = false /\
   (_UploadTestResultToSkiaGold env image_name screenshot page st).1 = Ok tt) /\
  (Options.no_skia_gold_failure (GetParsedCommandLineOptions env) = false ->
   _GracePeriodActive (today env) page = false ->
   _ShouldReportGoldFailure env page = true /\
   (_UploadTestResultToSkiaGold env image_name screenshot page st).1 =
   Raise (Exception "goldctl command failed, see above for details")).
Proof.
  rewrite (_UploadTestResultToSkiaGold_run _ _ _ _ _ _ _ _ _ Hkeys Hrun).
  apply Z.eqb_neq in Hfail. rewrite Hfail.
  split.
  - intros Hb. rewrite (_ShouldReportGoldFailure_bypass env page Hb).
    split; reflexivity.
  - intros Hb Hg. rewrite (_ShouldReportGoldFailure_surface env page Hb Hg).
    split; reflexivity.
Qed.

Lemma suppression_decision_witness :
  _ShouldReportGoldFailure (sample_env intel_device false 1 None) (sample_page None)
  = true /\
  (_UploadTestResultToSkiaGold (sample_env intel_device false 1 None) "pixel_test"
     [] (sample_page None) initial_state).1
  = Raise (Exception "goldctl command failed, see above for details").
Proof.
  exact (proj2 (suppression_decision
                  (sample_env intel_device false 1 None) "pixel_test" []
                  (sample_page None) initial_state intel_state _ 1
                  (Some "goldctl output")
                  (intel_first_build false 1 None None) eq_refl
                  ltac:(discriminate))
               eq_refl eq_refl).
Defined.

(** C6: for a comparison that returned a non-PASS status the diagnostics of
    the dispatch table are appended to the log, at least one event, the
    same whether the failure is then raised or suppressed; and whenever the
    upload raises the comparison-failure exception, the state in which it
    is raised already holds those diagnostics at the end of its log. *)
Theorem diagnostics_before_suppression (env : Env) (image_name : string)
    (screenshot : list Z) (page : Page.t) (st : state) :
  (forall keys st1 status error,
     GetGoldJsonKeys env page st = (Ok keys, st1) ->
     comparison env image_name screenshot page keys = (status, error) ->
     status <> 0 ->
     let emitted :=
       diagnostics (outcome_kind (SessionStatusCodes env) status)
         (GetSkiaGoldSession env keys SKIA_GOLD_CORPUS)
         (GoldProperties.IsTryjobRun (GetSkiaGoldProperties env))
         image_name status error in
     emitted <> [] /\
     log (_UploadTestResultToSkiaGold env image_name screenshot page st).2
     = log st ++ emitted /\
     (_UploadTestResultToSkiaGold env image_name screenshot page st).1
     = if _ShouldReportGoldFailure env page
       then Raise (Exception "goldctl command failed, see above for details")
       else Ok tt) /\
  (forall st',
     _UploadTestResultToSkiaGold env image_name screenshot page st
     = (Raise (Exception "goldctl command failed, see above for details"), st') ->
     exists keys st1 status error,
       GetGoldJsonKeys env page st = (Ok keys, st1) /\
       comparison env image_name screenshot page keys = (status, error) /\
       status <> 0 /\
       let emitted :=
         diagnostics (outcome_kind (SessionStatusCodes env) status)
           (GetSkiaGoldSession env keys SKIA_GOLD_CORPUS)
           (GoldProperties.IsTryjobRun (GetSkiaGoldProperties env))
           image_name status error in
       emitted <> [] /\ log st' = log st ++ emitted).
Proof.
  split.
  - intros keys st1 status error Hkeys Hrun Hfail emitted.
    split.
    { apply diagnostics_not_nil. rewrite outcome_kind_PASS. exact Hfail. }
    rewrite (_UploadTestResultToSkiaGold_run _ _ _ _ _ _ _ _ _ Hkeys Hrun).
    apply Z.eqb_neq in Hfail. rewrite Hfail.
    destruct (GetGoldJsonKeys_ok _ _ _ _ _ Hkeys) as (p & _ & _ & Hlog).
    cbn [fst snd log]. rewrite Hlog. split; reflexivity.
  - intros st' Hup.
    destruct (GetGoldJsonKeys_result env page st)
      as [(p & st1 & Hk & _ & Hlog & _) | (e & st1 & Hk & _ & He)].
    + destruct (comparison env image_name screenshot page (key_set env page p))
        as [status error] eqn:Hrun.
      rewrite (_UploadTestResultToSkiaGold_run _ _ _ _ _ _ _ _ _ Hk Hrun) in Hup.
      destruct (Z.eqb_spec status 0) as [-> | Hfail]; [discriminate|].
      exists (key_set env page p), st1, status, error.
      split; [exact Hk|]. split; [exact Hrun|]. split; [exact Hfail|].
      split.
      { apply diagnostics_not_nil. rewrite outcome_kind_PASS. exact Hfail. }
      injection Hup as _ <-. cbn [log]. rewrite Hlog. reflexivity.
    + rewrite (_UploadTestResultToSkiaGold_builder_raises _ _ _ _ _ _ _ Hk) in Hup.
      injection Hup as -> _. contradiction He. reflexivity.
Qed.

Lemma diagnostics_before_suppression_witness :
  log (_UploadTestResultToSkiaGold (sample_env intel_device true 1 None)
         "pixel_test" [] (sample_page None) initial_state).2
  = [LoggingError "Gold authentication failed with output %s"
       [PStr "goldctl output"]] /\
  (_UploadTestResultToSkiaGold (sample_env intel_device true 1 None)
     "pixel_test" [] (sample_page None) initial_state).1 = Ok tt.
Proof.
  exact (proj2 (proj1 (diagnostics_before_suppression
                         (sample_env intel_device true 1 None) "pixel_test" []
                         (sample_page None) initial_state)
                      _ intel_state 1 (Some "goldctl output")
                      (intel_first_build true 1 None None) eq_refl
                      ltac:(discriminate))).
Defined.

(** C7: on a status equal to the remote-comparison-failure code (and to
    none of the codes tested before it), the upload asks the session for
    the triage link.  With no link ([None] or the empty string) it appends
    exactly two error log entries, the second carrying the omission reason,
    and no link artifact; with a link it appends exactly one [CreateLink],
    named 'triage_link_for_entire_cl' on a tryjob run and
    'gold_triage_link' otherwise. *)
Theorem remote_mismatch_triage_link (env : Env) (image_name : string)
    (screenshot : list Z) (page : Page.t) (st st1 : state)
    (keys : gmap string string) (status : Z) (error : option string)
    (Hkeys : GetGoldJsonKeys env page st = (Ok keys, st1))
    (Hrun : comparison env image_name screenshot page keys = (status, error))
    (Hfail : status <> 0)
    (Hauth : status <> StatusCodes.AUTH_FAILURE (SessionStatusCodes env))
    (Hinit : status <> StatusCodes.INIT_FAILURE (SessionStatusCodes env))
    (Hremote : status = StatusCodes.COMPARISON_FAILURE_REMOTE (SessionStatusCodes env)) :
  let gold_session := GetSkiaGoldSession env keys SKIA_GOLD_CORPUS in
  let triage_link := (Session.GetTriageLinks gold_session image_name).2 in
  let final := (_UploadTestResultToSkiaGold env image_name screenshot page st).2 in
  (triage_link = None \/ triage_link = Some "" ->
   log final =
   log st ++
   [LoggingError "Failed to get triage link for %s, raw output: %s"
      [PStr image_name; of_opt_str error];
    LoggingError "Reason for no triage link: %s"
      [PStr (Session.GetTriageLinkOmissionReason gold_session image_name)]]) /\
  (forall link,
     triage_link = Some link -> link <> "" ->
     log final =
     log st ++
     [CreateLink
        (if GoldProperties.IsTryjobRun (GetSkiaGoldProperties env)
         then "triage_link_for_entire_cl" else "gold_triage_link")
        (PStr link)]).
Proof.
  intros gold_session triage_link final. subst final.
  rewrite (_UploadTestResultToSkiaGold_run _ _ _ _ _ _ _ _ _ Hkeys Hrun).
  destruct (GetGoldJsonKeys_ok _ _ _ _ _ Hkeys) as (p & _ & _ & Hlog).
  assert (Hkind : outcome_kind (SessionStatusCodes env) status
                  = Outcome.REMOTE_MISMATCH).
  { unfold outcome_kind.
    apply Z.eqb_neq in Hfail, Hauth, Hinit. rewrite Hfail, Hauth, Hinit.
    rewrite <- Hremote, Z.eqb_refl. reflexivity. }
  apply Z.eqb_neq in Hfail. rewrite Hfail, Hkind.
  cbn [snd log diagnostics]. fold gold_session. fold triage_link. rewrite Hlog.
  split.
  - intros [-> | ->]; reflexivity.
  - intros link -> Hne. cbn [truthy_str].
    apply String.eqb_neq in Hne. rewrite Hne. reflexivity.
Qed.

Lemma remote_mismatch_triage_link_witness :
  log (_UploadTestResultToSkiaGold (sample_env intel_device false 3 None)
         "pixel_test" [] (sample_page None) initial_state).2
  = [LoggingError "Failed to get triage link for %s, raw output: %s"
       [PStr "pixel_test"; PStr "goldctl output"];
     LoggingError "Reason for no triage link: %s"
       [PStr "Gold has not seen this image"]].
Proof.
  exact (proj1 (remote_mismatch_triage_link
                  (sample_env intel_device false 3 None) "pixel_test" []
                  (sample_page None) initial_state intel_state _ 3
                  (Some "goldctl output")
                  (intel_first_build false 3 None None) eq_refl
                  ltac:(discriminate) ltac:(discriminate) ltac:(discriminate)
                  eq_refl)
               (or_introl eq_refl)).
Defined.

Example remote_mismatch_tryjob_link :
  log (_UploadTestResultToSkiaGold
         (sample_env intel_device false 3 (Some "https://gold/cl/1"))
         "pixel_test" [] (sample_page None) initial_state).2
  = [CreateLink "triage_link_for_entire_cl" (PStr "https://gold/cl/1")].
Proof. vm_compute. reflexivity. Qed.

Example local_mismatch_links :
  log (_UploadTestResultToSkiaGold (sample_env intel_device false 4 None)
         "pixel_test" [] (sample_page (Some (Date 2024 3 1))) initial_state).2
  = [LoggingError "Local comparison failed. Local diff files:" [];
     LoggingError "Generated image: %s" [PStr "file:///tmp/given.png"];
     LoggingError "Closest image: %s" [PStr "Unable to retrieve link"];
     LoggingError "Diff image: %s" [PStr "Unable to retrieve link"]].
Proof. vm_compute. reflexivity. Qed.

(** * Further properties of the module *)

(** ** More on the driver-version truncation *)

Lemma join_split sep s : join (String sep EmptyString) (split sep s) = s.
Proof.
  induction s as [|c s IH]; [reflexivity|].
  simpl. destruct (Ascii.eqb_spec c sep) as [-> | Hne].
  - pose proof (split_not_nil sep s) as Hnil.
    destruct (split sep s) as [|p ps]; [congruence|].
    change (join (String sep "") ("" :: p :: ps))
      with (String sep (join (String sep "") (p :: ps))).
    rewrite IH. reflexivity.
  - pose proof (split_not_nil sep s) as Hnil.
    destruct (split sep s) as [|p ps]; [congruence|].
    destruct ps as [|q qs].
    + simpl in *. rewrite IH. reflexivity.
    + change (join (String sep "") (String c p :: q :: qs))
        with (String c (join (String sep "") (p :: q :: qs))).
      rewrite IH. reflexivity.
Qed.

Lemma kept_parts_loop_is_prefix parts :
  exists rest, parts = kept_parts_loop parts [] ++ rest.
Proof.
  induction parts as [|part parts [rest IH]].
  - exists []. reflexivity.
  - rewrite kept_parts_loop_cons. destruct (short_part part).
    + exists rest. simpl. rewrite <- IH. reflexivity.
    + exists (part :: parts). reflexivity.
Qed.

Lemma prefix_empty s : String.prefix "" s = true.
Proof. destruct s; reflexivity. Qed.

Lemma prefix_app_same x u v :
  String.prefix (x ++ u)%string (x ++ v)%string = String.prefix u v.
Proof.
  induction x as [|c x IH]; [reflexivity|].
  simpl. destruct (ascii_dec c c); [exact IH | congruence].
Qed.

Lemma prefix_app_l x v : String.prefix x (x ++ v)%string = true.
Proof.
  induction x as [|c x IH]; [apply prefix_empty|].
  simpl. destruct (ascii_dec c c); [exact IH | congruence].
Qed.

Lemma prefix_refl x : String.prefix x x = true.
Proof.
  induction x as [|c x IH]; [reflexivity|].
  simpl. destruct (ascii_dec c c); [exact IH | congruence].
Qed.

Lemma prefix_length a b :
  String.prefix a b = true -> (String.length a <= String.length b)%nat.
Proof.
  revert b. induction a as [|c a IH]; intros b H; simpl; [lia|].
  destruct b as [|d b]; [discriminate|].
  simpl in H. destruct (ascii_dec c d); [|discriminate].
  simpl. specialize (IH b H). lia.
Qed.

Lemma join_app_prefix sep a b :
  String.prefix (join sep a) (join sep (a ++ b)) = true.
Proof.
  induction a as [|x a IH]; [apply prefix_empty|].
  destruct a as [|y a].
  - destruct b as [|z b]; simpl.
    + apply prefix_refl.
    + apply prefix_app_l.
  - change (join sep (x :: y :: a)) with (x ++ sep ++ join sep (y :: a))%string.
    change (join sep ((x :: y :: a) ++ b))
      with (x ++ sep ++ join sep ((y :: a) ++ b))%string.
    rewrite !prefix_app_same. exact IH.
Qed.

Lemma truncation_is_prefix version :
  String.prefix (join "." (kept_parts_loop (split "." version) [])) version = true.
Proof.
  destruct (kept_parts_loop_is_prefix (split "." version)) as [rest Hrest].
  rewrite <- (join_split "." version) at 2.
  rewrite Hrest at 2. apply join_app_prefix.
Qed.

Lemma truncation_parts_short version :
  Forall (fun part => (String.length part <= 8)%nat)
    (split "." (join "." (kept_parts_loop (split "." version) []))).
Proof.
  assert (Hshort : forall parts,
            Forall (fun p => short_part p = true) parts ->
            Forall (fun part => (String.length part <= 8)%nat) parts).
  { intros parts Hparts. eapply Forall_impl; [exact Hparts|].
    intros part Hp. unfold short_part in Hp.
    apply negb_true_iff, Nat.ltb_ge in Hp. exact Hp. }
  destruct (kept_parts_loop (split "." version) []) as [|k ks] eqn:Hk.
  - simpl. constructor; [simpl; lia | constructor].
  - rewrite split_join.
    + apply Hshort. rewrite <- Hk. apply kept_parts_loop_short.
    + discriminate.
    + rewrite <- Hk. apply kept_parts_loop_Forall, split_parts_no_sep.
Qed.

(** For an ANGLE driver the truncation always returns; the new driver
    version is a prefix of the old one (so never longer), and each of its
    dot-separated components has at most 8 characters. *)
Theorem strip_angle_revision_truncates (p : ImageParameters.t)
    (vendor version : string)
    (Hvendor : ImageParameters.driver_vendor p = Some vendor)
    (Hangle : str_contains "ANGLE" vendor = true)
    (Hversion : ImageParameters.driver_version p = Some version) :
  exists version',
    strip_angle_revision p =
      Ok (ImageParameters.set_driver_version (Some version') p) /\
    String.prefix version' version = true /\
    (String.length version' <= String.length version)%nat /\
    Forall (fun part => (String.length part <= 8)%nat) (split "." version').
Proof.
  unfold strip_angle_revision. rewrite Hvendor, Hangle, Hversion. cbn [negb].
  destruct (String.eqb_spec version "") as [-> | Hne].
  - exists "". split.
    + destruct p. cbn in *. rewrite Hversion. reflexivity.
    + split; [reflexivity|]. split; [simpl; lia|].
      simpl. constructor; [simpl; lia | constructor].
  - exists (join "." (kept_parts_loop (split "." version) [])).
    split; [reflexivity|].
    split; [apply truncation_is_prefix|].
    split; [apply prefix_length, truncation_is_prefix|].
    apply truncation_parts_short.
Qed.

Lemma strip_angle_revision_truncates_witness :
  exists version',
    strip_angle_revision angle_params =
      Ok (ImageParameters.set_driver_version (Some version') angle_params) /\
    String.prefix version' "2.1.0.b50541b2d6c4" = true /\
    (String.length version' <= String.length "2.1.0.b50541b2d6c4")%nat /\
    Forall (fun part => (String.length part <= 8)%nat) (split "." version').
Proof.
  exact (strip_angle_revision_truncates angle_params "Google Inc. (ANGLE)"
           "2.1.0.b50541b2d6c4" eq_refl eq_refl eq_refl).
Defined.

Lemma kept_parts_loop_stops kept long rest :
  Forall (fun p => short_part p = true) kept ->
  short_part long = false ->
  kept_parts_loop (kept ++ long :: rest) [] = kept.
Proof.
  intros Hkept Hlong. induction Hkept as [|k ks Hk Hks IH]; simpl app.
  - rewrite kept_parts_loop_cons, Hlong. reflexivity.
  - rewrite kept_parts_loop_cons, Hk, IH. reflexivity.
Qed.

(** The revision is dropped whatever it is: when the version consists of
    components of at most 8 characters followed by a component of more than
    8 characters (and anything after it), an ANGLE driver's version becomes
    the short components alone.  Two drivers that differ only from the
    first long component on therefore get the same driver version. *)
Theorem strip_angle_revision_drops_revision (p : ImageParameters.t)
    (vendor : string) (kept : list string) (long : string) (rest : list string)
    (Hvendor : ImageParameters.driver_vendor p = Some vendor)
    (Hangle : str_contains "ANGLE" vendor = true)
    (Hversion : ImageParameters.driver_version p =
                Some (join "." (kept ++ long :: rest)))
    (Hdots : Forall (fun part => has_char "." part = false) (kept ++ long :: rest))
    (Hkept : Forall (fun part => (String.length part <= 8)%nat) kept)
    (Hlong : (8 < String.length long)%nat) :
  strip_angle_revision p =
  Ok (ImageParameters.set_driver_version (Some (join "." kept)) p).
Proof.
  assert (Hsplit : split "." (join "." (kept ++ long :: rest)) = kept ++ long :: rest).
  { apply split_join; [|exact Hdots]. destruct kept; discriminate. }
  unfold strip_angle_revision. rewrite Hvendor, Hangle, Hversion. cbn [negb].
  destruct (String.eqb_spec (join "." (kept ++ long :: rest)) "") as [Hempty | _].
  - exfalso. rewrite Hempty in Hsplit. simpl in Hsplit.
    destruct kept as [|k [|k' ks]]; simpl in Hsplit.
    + injection Hsplit as <- _. simpl in Hlong. lia.
    + discriminate.
    + discriminate.
  - rewrite Hsplit, kept_parts_loop_stops; [reflexivity| |].
    + eapply Forall_impl; [exact Hkept|]. intros part Hp. unfold short_part.
      apply negb_true_iff, Nat.ltb_ge. exact Hp.
    + unfold short_part. apply negb_false_iff, Nat.ltb_lt. exact Hlong.
Qed.

Lemma strip_angle_revision_drops_revision_witness :
  strip_angle_revision angle_params =
  Ok (ImageParameters.set_driver_version (Some (join "." ["2"; "1"; "0"]))
        angle_params).
Proof.
  refine (strip_angle_revision_drops_revision angle_params "Google Inc. (ANGLE)"
            ["2"; "1"; "0"] "b50541b2d6c4" [] eq_refl eq_refl eq_refl _ _ _).
  - repeat constructor.
  - repeat constructor; simpl; lia.
  - simpl. lia.
Defined.

(** ** [GenerateBrowserArgs] *)

(** The constants of [common_browser_args] used here. *)
Module cba.
Definition ENABLE_GPU_BENCHMARKING : string := "--enable-gpu-benchmarking".
Definition TEST_TYPE_GPU : string := "--test-type=gpu".
Definition ENSURE_FORCED_COLOR_PROFILE : string := "--ensure-forced-color-profile".
Definition FORCE_COLOR_PROFILE_SRGB : string := "--force-color-profile=srgb".
End cba.

(** [arg.startswith('--force-color-profile=')]. *)
Definition is_force_color_profile (arg : string) : bool :=
  String.prefix "--force-color-profile=" arg.

(** [super_args] is what the parent class' [GenerateBrowserArgs] returns for
    the same [additional_args]; the parent class is not part of this
    module. *)
Definition GenerateBrowserArgs (super_args : list string) : list string :=
  let default_args := super_args in
  let default_args :=
    default_args ++ [cba.ENABLE_GPU_BENCHMARKING; cba.TEST_TYPE_GPU] in
  let force_color_profile_arg := List.filter is_force_color_profile default_args in
  match force_color_profile_arg with
  | [] =>
      default_args ++ [cba.FORCE_COLOR_PROFILE_SRGB; cba.ENSURE_FORCED_COLOR_PROFILE]
  | _ :: _ => default_args
  end.

Lemma filter_force_color_profile_app super_args :
  List.filter is_force_color_profile
    (super_args ++ [cba.ENABLE_GPU_BENCHMARKING; cba.TEST_TYPE_GPU])
  = List.filter is_force_color_profile super_args.
Proof.
  rewrite List.filter_app. simpl. apply app_nil_r.
Qed.

(** The browser is always started with a forced colour profile: the
    parent's arguments come first and are kept, GPU benchmarking and the
    GPU test type are always added, and the result always has an argument
    that starts with '--force-color-profile='. *)
Theorem GenerateBrowserArgs_forces_color_profile (super_args : list string) :
  (exists added, GenerateBrowserArgs super_args = super_args ++ added) /\
  In cba.ENABLE_GPU_BENCHMARKING (GenerateBrowserArgs super_args) /\
  In cba.TEST_TYPE_GPU (GenerateBrowserArgs super_args) /\
  existsb is_force_color_profile (GenerateBrowserArgs super_args) = true.
Proof.
  unfold GenerateBrowserArgs. cbv zeta.
  rewrite filter_force_color_profile_app.
  destruct (List.filter is_force_color_profile super_args) as [|arg args] eqn:Hf.
  - split; [|split; [|split]].
    + eexists. rewrite <- app_assoc. reflexivity.
    + apply in_or_app. left. apply in_or_app. right. simpl. auto.
    + apply in_or_app. left. apply in_or_app. right. simpl. auto.
    + rewrite existsb_app. apply orb_true_iff. right. reflexivity.
  - split; [|split; [|split]].
    + eexists. reflexivity.
    + apply in_or_app. right. simpl. auto.
    + apply in_or_app. right. simpl. auto.
    + rewrite existsb_app. apply orb_true_iff. left.
      assert (Hin : In arg (List.filter is_force_color_profile super_args)).
      { rewrite Hf. left. reflexivity. }
      apply List.filter_In in Hin as [Hin Harg].
      apply existsb_exists. exists arg. split; assumption.
Qed.

(** A colour profile chosen by the caller is never overridden: when the
    parent's arguments already contain a '--force-color-profile=' argument,
    only the two GPU arguments are appended; otherwise sRGB is forced and
    '--ensure-forced-color-profile' is added after it. *)
Theorem GenerateBrowserArgs_respects_caller_profile (super_args : list string) :
  (existsb is_force_color_profile super_args = true ->
   GenerateBrowserArgs super_args =
   super_args ++ [cba.ENABLE_GPU_BENCHMARKING; cba.TEST_TYPE_GPU]) /\
  (existsb is_force_color_profile super_args = false ->
   GenerateBrowserArgs super_args =
   super_args ++ [cba.ENABLE_GPU_BENCHMARKING; cba.TEST_TYPE_GPU;
                  cba.FORCE_COLOR_PROFILE_SRGB; cba.ENSURE_FORCED_COLOR_PROFILE]).
Proof.
  unfold GenerateBrowserArgs. cbv zeta.
  rewrite filter_force_color_profile_app.
  destruct (List.filter is_force_color_profile super_args) as [|arg args] eqn:Hf.
  - assert (Hnone : existsb is_force_color_profile super_args = false).
    { apply not_true_is_false. intros Hex.
      apply existsb_exists in Hex as (arg & Hin & Harg).
      assert (Hin' : In arg (List.filter is_force_color_profile super_args)).
      { apply List.filter_In. split; assumption. }
      rewrite Hf in Hin'. destruct Hin'. }
    rewrite Hnone. split; [discriminate|].
    intros _. rewrite <- app_assoc. reflexivity.
  - assert (Hsome : existsb is_force_color_profile super_args = true).
    { assert (Hin : In arg (List.filter is_force_color_profile super_args)).
      { rewrite Hf. left. reflexivity. }
      apply List.filter_In in Hin as [Hin Harg].
      apply existsb_exists. exists arg. split; assumption. }
    rewrite Hsome. split; [reflexivity | discriminate].
Qed.

Lemma GenerateBrowserArgs_respects_caller_profile_witness :
  GenerateBrowserArgs ["--force-color-profile=display-p3-d65"] =
  ["--force-color-profile=display-p3-d65"; "--enable-gpu-benchmarking";
   "--test-type=gpu"].
Proof.
  exact (proj1 (GenerateBrowserArgs_respects_caller_profile
                  ["--force-color-profile=display-p3-d65"]) eq_refl).
Defined.

(** ** [_UrlToImageName] *)

Fixpoint drop_slashes (s : string) : string :=
  match s with
  | String c s' => if Ascii.eqb c "/" then drop_slashes s' else s
  | EmptyString => s
  end.

Fixpoint drop_chars (n : nat) (s : string) : string :=
  match n, s with
  | S n', String _ s' => drop_chars n' s'
  | _, _ => s
  end.

(** The first [re.sub]: a leading "http://", "https://" or "file://" and
    every slash that directly follows it are removed. *)
Definition strip_scheme (url : string) : string :=
  if String.prefix "http://" url then drop_slashes (drop_chars 7 url)
  else if String.prefix "https://" url then drop_slashes (drop_chars 8 url)
  else if String.prefix "file://" url then drop_slashes (drop_chars 7 url)
  else url.

(** The second [re.sub]: every "../" found scanning left to right is
    removed, in one pass. *)
Fixpoint remove_parent_refs (s : string) : string :=
  match s with
  | EmptyString => EmptyString
  | String c1 s1 =>
      match s1 with
      | String c2 (String c3 rest) =>
          if Ascii.eqb c1 "." && Ascii.eqb c2 "." && Ascii.eqb c3 "/"
          then remove_parent_refs rest
          else String c1 (remove_parent_refs s1)
      | _ => String c1 (remove_parent_refs s1)
      end
  end.

Definition is_separator (c : ascii) : bool :=
  Ascii.eqb c "." || Ascii.eqb c "/" || Ascii.eqb c "-".

(** The third [re.sub]: each dot, slash and dash becomes an underscore. *)
Fixpoint underscore_separators (s : string) : string :=
  match s with
  | EmptyString => EmptyString
  | String c s' =>
      String (if is_separator c then "_"%char else c) (underscore_separators s')
  end.

Definition _UrlToImageName (url : string) : string :=
  let image_name := strip_scheme url in
  let image_name := remove_parent_refs image_name in
  let image_name := underscore_separators image_name in
  image_name.

Example url_to_image_name_example :
  _UrlToImageName "file:///content/test/../data/gpu/pixel-canvas2d.html"
  = "content_test_data_gpu_pixel_canvas2d_html".
Proof. reflexivity. Qed.

Definition no_separator (s : string) : bool :=
  all_chars (fun c => negb (is_separator c)) s.

Lemma underscore_separators_clean s :
  no_separator (underscore_separators s) = true.
Proof.
  unfold no_separator. induction s as [|c s IH]; [reflexivity|].
  simpl. rewrite IH, andb_true_r.
  destruct (is_separator c) eqn:Hc; [reflexivity | rewrite Hc; reflexivity].
Qed.

Lemma underscore_separators_fixed s :
  no_separator s = true -> underscore_separators s = s.
Proof.
  unfold no_separator. induction s as [|c s IH]; [reflexivity|].
  simpl. intros H. apply andb_true_iff in H as [Hc Hs].
  apply negb_true_iff in Hc. rewrite Hc, (IH Hs). reflexivity.
Qed.

Lemma remove_parent_refs_fixed s :
  no_separator s = true -> remove_parent_refs s = s.
Proof.
  unfold no_separator. induction s as [|c1 s1 IH]; [reflexivity|].
  intros H. simpl in H. apply andb_true_iff in H as [Hc Hs].
  specialize (IH Hs).
  assert (Hdot : Ascii.eqb c1 "." = false).
  { unfold is_separator in Hc. apply negb_true_iff in Hc.
    apply orb_false_iff in Hc as [Hc _]. apply orb_false_iff in Hc as [Hc _].
    exact Hc. }
  destruct s1 as [|c2 [|c3 rest]].
  - reflexivity.
  - reflexivity.
  - change (remove_parent_refs (String c1 (String c2 (String c3 rest))))
      with (if Ascii.eqb c1 "." && Ascii.eqb c2 "." && Ascii.eqb c3 "/"
            then remove_parent_refs rest
            else String c1 (remove_parent_refs (String c2 (String c3 rest)))).
    rewrite Hdot. cbn [andb]. rewrite IH. reflexivity.
Qed.

Lemma prefix_all_chars (P : ascii -> bool) p s :
  String.prefix p s = true -> all_chars P s = true -> all_chars P p = true.
Proof.
  revert s. induction p as [|c p IH]; intros s Hp Hs; [reflexivity|].
  destruct s as [|d s]; [discriminate|].
  simpl in Hp. destruct (ascii_dec c d) as [<- | _]; [|discriminate].
  simpl in Hs. apply andb_true_iff in Hs as [Hc Hs].
  simpl. rewrite Hc. exact (IH s Hp Hs).
Qed.

Lemma strip_scheme_fixed s : no_separator s = true -> strip_scheme s = s.
Proof.
  intros Hs. unfold strip_scheme.
  destruct (String.prefix "http://" s) eqn:H1.
  { pose proof (prefix_all_chars _ _ _ H1 Hs) as Hbad. discriminate. }
  destruct (String.prefix "https://" s) eqn:H2.
  { pose proof (prefix_all_chars _ _ _ H2 Hs) as Hbad. discriminate. }
  destruct (String.prefix "file://" s) eqn:H3.
  { pose proof (prefix_all_chars _ _ _ H3 Hs) as Hbad. discriminate. }
  reflexivity.
Qed.

(** An image name has no dot, slash or dash, and naming is idempotent: an
    image name is its own image name. *)
Theorem _UrlToImageName_clean_idempotent (url : string) :
  all_chars (fun c => negb (Ascii.eqb c "." || Ascii.eqb c "/" || Ascii.eqb c "-"))
    (_UrlToImageName url) = true /\
  _UrlToImageName (_UrlToImageName url) = _UrlToImageName url.
Proof.
  assert (Hclean : no_separator (_UrlToImageName url) = true).
  { unfold _UrlToImageName. apply underscore_separators_clean. }
  split; [exact Hclean|].
  unfold _UrlToImageName at 1.
  rewrite (strip_scheme_fixed _ Hclean), (remove_parent_refs_fixed _ Hclean).
  apply underscore_separators_fixed, Hclean.
Qed.

(** The scheme does not matter: the same path reached over http, https or
    file gets the same image name, and so does the bare path when it does
    not start with a slash. *)
Theorem _UrlToImageName_ignores_scheme (path : string) :
  _UrlToImageName ("http://" ++ path)%string
  = _UrlToImageName ("https://" ++ path)%string /\
  _UrlToImageName ("file://" ++ path)%string
  = _UrlToImageName ("https://" ++ path)%string /\
  (strip_scheme path = path -> drop_slashes path = path ->
   _UrlToImageName path = _UrlToImageName ("https://" ++ path)%string).
Proof.
  assert (H1 : strip_scheme ("http://" ++ path)%string = drop_slashes path)
    by (destruct path; reflexivity).
  assert (H2 : strip_scheme ("https://" ++ path)%string = drop_slashes path)
    by (destruct path; reflexivity).
  assert (H3 : strip_scheme ("file://" ++ path)%string = drop_slashes path)
    by (destruct path; reflexivity).
  unfold _UrlToImageName. rewrite H1, H2, H3.
  split; [reflexivity|]. split; [reflexivity|].
  intros Hs Hd. rewrite Hs, Hd. reflexivity.
Qed.

Lemma _UrlToImageName_ignores_scheme_witness :
  _UrlToImageName "content/test/data/gpu/pixel_canvas2d.html"
  = _UrlToImageName "https://content/test/data/gpu/pixel_canvas2d.html".
Proof.
  exact (proj2 (proj2 (_UrlToImageName_ignores_scheme
                         "content/test/data/gpu/pixel_canvas2d.html"))
               eq_refl eq_refl).
Defined.

(** ** [_UploadGoldErrorImageToCloudStorage] *)

(** A word character of a byte string: a letter, a digit or the underscore. *)
Definition is_word_char (c : ascii) : bool :=
  let n := nat_of_ascii c in
  ((48 <=? n) && (n <=? 57) || (65 <=? n) && (n <=? 90)
   || (97 <=? n) && (n <=? 122) || (n =? 95))%nat.

(** The substitution of one underscore for each maximal run of non-word
    characters; [in_run] tells whether the run was already replaced. *)
Fixpoint sub_nonword_runs (in_run : bool) (s : string) : string :=
  match s with
  | EmptyString => EmptyString
  | String c s' =>
      if is_word_char c then String c (sub_nonword_runs false s')
      else if in_run then sub_nonword_runs true s'
      else String "_" (sub_nonword_runs true s')
  end.

(** The request handed to [_UploadBitmapToCloudStorage]. *)
Record CloudStorageInsert : Type := MkInsert {
  insert_bucket : string;
  insert_name : string;
  insert_public : bool
}.

Definition _error_image_cloud_storage_bucket : string :=
  "chromium-browser-gpu-tests".

(** [revision] is the [git_revision] of the Gold properties and
    [test_machine_name] the command line option of that name. *)
Definition _UploadGoldErrorImageToCloudStorage (revision : option string)
    (test_machine_name : string) (image_name : string) : CloudStorageInsert :=
  let machine_name := sub_nonword_runs false test_machine_name in
  let base_bucket := (_error_image_cloud_storage_bucket ++ "/gold_failures")%string in
  let image_name_with_revision_and_machine :=
    (image_name ++ "_" ++ machine_name ++ "_"
       ++ match revision with Some r => r | None => "None" end ++ ".png")%string in
  MkInsert base_bucket image_name_with_revision_and_machine true.

Lemma sub_nonword_runs_word in_run s :
  all_chars is_word_char (sub_nonword_runs in_run s) = true.
Proof.
  revert in_run. induction s as [|c s IH]; intros in_run; [reflexivity|].
  simpl. destruct (is_word_char c) eqn:Hc.
  - simpl. rewrite Hc. apply IH.
  - destruct in_run; [apply IH|]. simpl. apply IH.
Qed.

Lemma sub_nonword_runs_fixed s :
  all_chars is_word_char s = true -> sub_nonword_runs false s = s.
Proof.
  induction s as [|c s IH]; [reflexivity|].
  simpl. intros H. apply andb_true_iff in H as [Hc Hs].
  rewrite Hc, (IH Hs). reflexivity.
Qed.

Lemma sub_nonword_runs_length in_run s :
  (String.length (sub_nonword_runs in_run s) <= String.length s)%nat.
Proof.
  revert in_run. induction s as [|c s IH]; intros in_run; simpl; [lia|].
  destruct (is_word_char c); simpl.
  - specialize (IH false). lia.
  - destruct in_run; simpl; specialize (IH true); lia.
Qed.

(** The object name of an uploaded error image is
    image_machine_revision.png in the gold_failures folder of the error
    bucket, publicly readable; the machine part consists of letters, digits
    and underscores only, is never longer than the machine name given on
    the command line, and is that name itself when it already consists of
    such characters. *)
Theorem error_image_name_sanitized (revision : option string)
    (test_machine_name image_name : string) :
  exists machine_name,
    _UploadGoldErrorImageToCloudStorage revision test_machine_name image_name =
    MkInsert "chromium-browser-gpu-tests/gold_failures"
      (image_name ++ "_" ++ machine_name ++ "_"
         ++ match revision with Some r => r | None => "None" end ++ ".png")%string
      true /\
    all_chars is_word_char machine_name = true /\
    (String.length machine_name <= String.length test_machine_name)%nat /\
    (all_chars is_word_char test_machine_name = true ->
     machine_name = test_machine_name).
Proof.
  exists (sub_nonword_runs false test_machine_name).
  split; [reflexivity|].
  split; [apply sub_nonword_runs_word|].
  split; [apply sub_nonword_runs_length|].
  apply sub_nonword_runs_fixed.
Qed.

Example error_image_name_example :
  insert_name (_UploadGoldErrorImageToCloudStorage (Some "abc123")
                 "win10 bot-7 (lab)" "pixel_test")
  = "pixel_test_win10_bot_7_lab__abc123.png".
Proof. reflexivity. Qed.

(** ** Failing and repeated computations of the GPU information *)

(** The error raised before any device is looked at, if any. *)
Definition early_error (env : Env) : option exn :=
  match Browser.GetSystemInfo (browser env) with
  | None => Some (Exception "System info must be supported by the browser")
  | Some system_info =>
      match SystemInfo.gpu system_info with
      | None => Some (Exception "GPU information was absent")
      | Some gpu =>
          match GPUInfo.devices gpu with
          | [] => Some (IndexError "list index out of range")
          | _ :: _ => None
          end
      end
  end.

Lemma early_error_None env :
  early_error env = None ->
  exists system_info gpu device, reports env system_info gpu device.
Proof.
  unfold early_error, reports.
  destruct (Browser.GetSystemInfo (browser env)) as [system_info|]; [|discriminate].
  destruct (SystemInfo.gpu system_info) as [gpu|] eqn:Hgpu; [|discriminate].
  destruct (GPUInfo.devices gpu) as [|device rest] eqn:Hdev; [discriminate|].
  intros _. exists system_info, gpu, device.
  rewrite Hgpu, Hdev. repeat split.
Qed.

Lemma early_error_Some env page st e :
  _image_parameters st = None ->
  early_error env = Some e ->
  _ComputeGpuInfo env page st = (Raise e, st) /\
  GetGoldJsonKeys env page st = (Raise e, st).
Proof.
  intros Hc He.
  assert (Hcompute : _ComputeGpuInfo env page st = (Raise e, st)).
  { destruct st as [h c lg]. simpl in Hc. subst c.
    unfold _ComputeGpuInfo, bind, get_cls_image_parameters.
    cbn [_image_parameters]. unfold early_error in He.
    destruct (Browser.GetSystemInfo (browser env)) as [system_info|];
      [|injection He as <-; reflexivity].
    destruct (SystemInfo.gpu system_info) as [gpu|];
      [|injection He as <-; reflexivity].
    destruct (GPUInfo.devices gpu) as [|device rest];
      [injection He as <-; reflexivity | discriminate]. }
  split; [exact Hcompute|].
  unfold GetGoldJsonKeys, GetImageParameters.
  unfold bind at 1. unfold bind at 1. unfold bind at 1.
  unfold get_cls_image_parameters at 1.
  rewrite Hc, Hcompute. reflexivity.
Qed.

(** When the browser offers no system info, no GPU info or no device, the
    computation raises ('System info must be supported by the browser',
    'GPU information was absent', or an IndexError for the empty device
    list) and leaves the state as it was: nothing is cached, so the next
    call starts over. *)
Theorem _ComputeGpuInfo_early_errors (env : Env) (page : Page.t) (st : state)
    (Hfresh : _image_parameters st = None) :
  (Browser.GetSystemInfo (browser env) = None ->
   _ComputeGpuInfo env page st =
   (Raise (Exception "System info must be supported by the browser"), st)) /\
  (forall system_info,
     Browser.GetSystemInfo (browser env) = Some system_info ->
     SystemInfo.gpu system_info = None ->
     _ComputeGpuInfo env page st =
     (Raise (Exception "GPU information was absent"), st)) /\
  (forall system_info gpu,
     Browser.GetSystemInfo (browser env) = Some system_info ->
     SystemInfo.gpu system_info = Some gpu ->
     GPUInfo.devices gpu = [] ->
     _ComputeGpuInfo env page st =
     (Raise (IndexError "list index out of range"), st)).
Proof.
  split; [|split].
  - intros Hsys. apply (early_error_Some env page st _ Hfresh).
    unfold early_error. rewrite Hsys. reflexivity.
  - intros system_info Hsys Hgpu. apply (early_error_Some env page st _ Hfresh).
    unfold early_error. rewrite Hsys, Hgpu. reflexivity.
  - intros system_info gpu Hsys Hgpu Hdev.
    apply (early_error_Some env page st _ Hfresh).
    unfold early_error. rewrite Hsys, Hgpu, Hdev. reflexivity.
Qed.

Definition no_system_info_env : Env :=
  MkEnv (Browser.Make None (Platform.Make (Some "win") (Some "win10") (Some "")))
    (Date 2024 3 1) (Options.Make false) (GoldProperties.Make false false true)
    (fun _ _ => sample_session 1 None) (StatusCodes.Make 1 2 3 4 5).

Lemma _ComputeGpuInfo_early_errors_witness :
  _ComputeGpuInfo no_system_info_env (sample_page None) initial_state =
  (Raise (Exception "System info must be supported by the browser"), initial_state).
Proof.
  exact (proj1 (_ComputeGpuInfo_early_errors no_system_info_env (sample_page None)
                  initial_state eq_refl) eq_refl).
Defined.

(** A computation that fails with 'GPU device information was incomplete'
    has already cached the new, still blank object.  From then on the
    accessor returns that object without complaint, and every key-set
    build, whatever the browser reports by then, raises a TypeError from the
    driver-version truncation, until the cache is reset. *)
Theorem incomplete_computation_poisons_cache (env : Env) (page : Page.t)
    (st : state) (system_info : SystemInfo.t) (gpu : GPUInfo.t)
    (device : GPUDevice.t)
    (Hfresh : _image_parameters st = None)
    (Hrep : reports env system_info gpu device)
    (Hids : ids_present device = false)
    (Hstrings : strings_present device = false)
    (Hgpu : Page.gpu_process_disabled page = false) :
  exists st',
    _ComputeGpuInfo env page st =
    (Raise (Exception "GPU device information was incomplete"), st') /\
    stored st' ImageParameters.init /\
    forall env' page',
      GetImageParameters env' page' st' = (Ok (_image_parameters st'), st') /\
      GetGoldJsonKeys env' page' st' =
      (Raise (TypeError "argument of type 'NoneType' is not iterable"), st').
Proof.
  exists (State (heap st ++ [ImageParameters.init]) (Some (length (heap st))) (log st)).
  assert (Hl : (heap st ++ [ImageParameters.init]) !! length (heap st)
               = Some ImageParameters.init).
  { apply list_lookup_middle. reflexivity. }
  split.
  - rewrite (_ComputeGpuInfo_fresh _ _ _ _ _ _ Hfresh Hrep).
    unfold identity_source. fold (ids_present device) (strings_present device).
    rewrite Hids, Hstrings, Hgpu. reflexivity.
  - split; [exists (length (heap st)); split; [reflexivity | exact Hl]|].
    intros env' page'. split.
    + apply GetImageParameters_cached. reflexivity.
    + rewrite (GetGoldJsonKeys_cached env' page'
                 (State (heap st ++ [ImageParameters.init])
                    (Some (length (heap st))) (log st))
                 (length (heap st)) ImageParameters.init eq_refl Hl).
      reflexivity.
Qed.

Lemma incomplete_computation_poisons_cache_witness :
  exists st',
    _ComputeGpuInfo (sample_env software_device false 1 None) (sample_page None)
      initial_state =
    (Raise (Exception "GPU device information was incomplete"), st') /\
    stored st' ImageParameters.init /\
    forall env' page',
      GetImageParameters env' page' st' = (Ok (_image_parameters st'), st') /\
      GetGoldJsonKeys env' page' st' =
      (Raise (TypeError "argument of type 'NoneType' is not iterable"), st').
Proof.
  exact (incomplete_computation_poisons_cache
           (sample_env software_device false 1 None) (sample_page None)
           initial_state
           (SystemInfo.Make (Some (GPUInfo.Make [software_device] [])) (Some "model"))
           (GPUInfo.Make [software_device] []) software_device
           eq_refl (conj eq_refl (conj eq_refl eq_refl)) eq_refl eq_refl eq_refl).
Defined.

Lemma existsb_eqb_In x (l : list string) :
  existsb (String.eqb x) l = true <-> In x l.
Proof.
  rewrite existsb_exists. split.
  - intros (y & Hin & Heq). apply String.eqb_eq in Heq. subst y. exact Hin.
  - intros Hin. exists x. split; [exact Hin | apply String.eqb_refl].
Qed.

(** Whichever identity source is chosen, a successful first computation
    copies the model name from the system info and the driver version and
    vendor from the first device, and sets msaa to false exactly when one
    of the two multisample workarounds is among the driver bug
    workarounds. *)
Theorem _ComputeGpuInfo_common_fields (env : Env) (page : Page.t) (st : state)
    (system_info : SystemInfo.t) (gpu : GPUInfo.t) (device : GPUDevice.t)
    (p : ImageParameters.t)
    (Hfresh : _image_parameters st = None)
    (Hrep : reports env system_info gpu device)
    (Hcomputed : computed env page st p) :
  ImageParameters.model_name p = SystemInfo.model_name system_info /\
  ImageParameters.driver_version p = GPUDevice.driver_version device /\
  ImageParameters.driver_vendor p = GPUDevice.driver_vendor device /\
  (ImageParameters.msaa p = false <->
   In "disable_chromium_framebuffer_multisample" (GPUInfo.driver_bug_workarounds gpu)
   \/ In "disable_multisample_render_to_texture" (GPUInfo.driver_bug_workarounds gpu)).
Proof.
  destruct Hcomputed as (st' & Hrun & l & Hl & Hp).
  rewrite (_ComputeGpuInfo_fresh _ _ _ _ _ _ Hfresh Hrep) in Hrun.
  destruct (identity_source device page) as [f|]; [|discriminate].
  injection Hrun as <-. cbn [_image_parameters heap] in Hl, Hp.
  injection Hl as <-.
  rewrite list_lookup_middle in Hp by reflexivity. injection Hp as <-.
  unfold common_fields, ImageParameters.set_driver_vendor,
    ImageParameters.set_driver_version, ImageParameters.set_model_name,
    ImageParameters.set_msaa.
  cbn [ImageParameters.msaa ImageParameters.model_name
       ImageParameters.driver_version ImageParameters.driver_vendor].
  split; [reflexivity|]. split; [reflexivity|]. split; [reflexivity|].
  rewrite negb_false_iff, orb_true_iff, !existsb_eqb_In. reflexivity.
Qed.

Lemma _ComputeGpuInfo_common_fields_witness :
  ImageParameters.model_name angle_params = Some "model" /\
  ImageParameters.driver_version angle_params = Some "2.1.0.b50541b2d6c4" /\
  ImageParameters.driver_vendor angle_params = Some "Google Inc. (ANGLE)" /\
  (ImageParameters.msaa angle_params = false <->
   In "disable_chromium_framebuffer_multisample" [] \/
   In "disable_multisample_render_to_texture" []).
Proof.
  refine (_ComputeGpuInfo_common_fields
            (sample_env intel_device false 1 None) (sample_page None)
            initial_state intel_system_info (GPUInfo.Make [intel_device] [])
            intel_device angle_params eq_refl
            (conj eq_refl (conj eq_refl eq_refl)) _).
  exists (State [angle_params] (Some 0%nat) []).
  split; [reflexivity|]. exists 0%nat. split; reflexivity.
Defined.

(** ** Resetting and reusing the cache *)

Lemma GetGoldJsonKeys_fresh_independent env page st :
  _image_parameters st = None ->
  (GetGoldJsonKeys env page st).1 = (GetGoldJsonKeys env page initial_state).1 /\
  (exists added, heap (GetGoldJsonKeys env page st).2 = heap st ++ added) /\
  log (GetGoldJsonKeys env page st).2 = log st.
Proof.
  intros Hc.
  destruct (early_error env) as [e|] eqn:He.
  - rewrite (proj2 (early_error_Some env page st e Hc He)).
    rewrite (proj2 (early_error_Some env page initial_state e eq_refl He)).
    split; [reflexivity|]. split; [|reflexivity].
    exists []. symmetry. apply app_nil_r.
  - destruct (early_error_None env He) as (system_info & gpu & device & Hrep).
    rewrite (GetGoldJsonKeys_fresh env page st _ _ _ Hc Hrep).
    rewrite (GetGoldJsonKeys_fresh env page initial_state _ _ _ eq_refl Hrep).
    destruct (identity_source device page) as [f|].
    + destruct (strip_angle_revision _) as [p'|e];
        (split; [reflexivity|]; split; [eexists; reflexivity | reflexivity]).
    + split; [reflexivity|]. split; [eexists; reflexivity | reflexivity].
Qed.

(** After [ResetGpuInfo], a key-set build returns exactly what it returns
    on a brand-new process (the same keys or the same exception): nothing of
    the previous identity survives.  Objects created earlier stay in place
    untouched and the log is not written. *)
Theorem reset_then_build_starts_over (env : Env) (page : Page.t) (st : state) :
  (ResetGpuInfo st).1 = Ok tt /\
  (GetGoldJsonKeys env page (ResetGpuInfo st).2).1
  = (GetGoldJsonKeys env page initial_state).1 /\
  (exists added,
     heap (GetGoldJsonKeys env page (ResetGpuInfo st).2).2 = heap st ++ added) /\
  log (GetGoldJsonKeys env page (ResetGpuInfo st).2).2 = log st.
Proof.
  split; [reflexivity|].
  exact (GetGoldJsonKeys_fresh_independent env page
           (State (heap st) None (log st)) eq_refl).
Qed.

(** While an identity object is cached the browser's system info is not
    consulted: two environments that agree on the platform and on today's
    date give the same result and the same state, whatever GPU each of them
    reports. *)
Theorem cached_build_ignores_system_info (env1 env2 : Env) (page : Page.t)
    (st : state) (l : loc) (p : ImageParameters.t)
    (Hcache : _image_parameters st = Some l)
    (Hobj : heap st !! l = Some p)
    (Hplatform : Browser.platform (browser env1) = Browser.platform (browser env2))
    (Htoday : today env1 = today env2) :
  GetGoldJsonKeys env1 page st = GetGoldJsonKeys env2 page st.
Proof.
  rewrite (GetGoldJsonKeys_cached env1 page st l p Hcache Hobj).
  rewrite (GetGoldJsonKeys_cached env2 page st l p Hcache Hobj).
  destruct (strip_angle_revision p) as [p'|e]; [|reflexivity].
  unfold key_set. rewrite Hplatform, Htoday. reflexivity.
Qed.

Lemma cached_build_ignores_system_info_witness :
  GetGoldJsonKeys (sample_env intel_device false 1 None) (sample_page None)
    intel_state
  = GetGoldJsonKeys (sample_env zero_vendor_device false 1 None) (sample_page None)
      intel_state.
Proof.
  exact (cached_build_ignores_system_info
           (sample_env intel_device false 1 None)
           (sample_env zero_vendor_device false 1 None) (sample_page None)
           intel_state 0%nat intel_params eq_refl eq_refl eq_refl eq_refl).
Defined.

(** ** Shape of the key set *)

Lemma key_set_dom env page p :
  dom (key_set env page p) =
  list_to_set ["vendor_id"; "device_id"; "vendor_string"; "device_string";
               "msaa"; "model_name"; "os"; "os_version";
               "os_version_detail_string"; "driver_version"; "driver_vendor";
               "combined_hardware_identifier"]
  ∪ (if _GracePeriodActive (today env) page then {["ignore"]} else ∅).
Proof.
  unfold key_set, dict_of. cbn [fold_left fst snd].
  destruct (_GracePeriodActive (today env) page);
    rewrite !dom_insert_L, dom_empty_L; cbn [list_to_set foldr]; set_solver.
Qed.

(** A returned key set has exactly the twelve fixed keys, plus 'ignore'
    when the grace period is active; and its combined hardware identifier
    is assembled from the very values found under 'vendor_id', 'device_id'
    and 'device_string'. *)
Theorem key_set_shape (env : Env) (page : Page.t) (st st' : state)
    (keys : gmap string string)
    (Hbuilt : GetGoldJsonKeys env page st = (Ok keys, st')) :
  dom keys =
  list_to_set ["vendor_id"; "device_id"; "vendor_string"; "device_string";
               "msaa"; "model_name"; "os"; "os_version";
               "os_version_detail_string"; "driver_version"; "driver_vendor";
               "combined_hardware_identifier"]
  ∪ (if _GracePeriodActive (today env) page then {["ignore"]} else ∅) /\
  exists vendor_id device_id device_string,
    keys !! "vendor_id" = Some vendor_id /\
    keys !! "device_id" = Some device_id /\
    keys !! "device_string" = Some device_string /\
    keys !! "combined_hardware_identifier" =
    Some ("vendor_id:" ++ vendor_id ++ ", device_id:" ++ device_id
            ++ ", device_string:" ++ device_string)%string.
Proof.
  destruct (GetGoldJsonKeys_ok _ _ _ _ _ Hbuilt) as (p & -> & _ & _).
  split; [apply key_set_dom|].
  destruct (key_set_entries env page p)
    as (Hv & Hd & _ & Hds & _ & _ & _ & _ & _ & _ & _ & Hc).
  cbv zeta in Hv, Hd, Hds, Hc.
  eexists _, _, _. split; [exact Hv|]. split; [exact Hd|]. split; [exact Hds|].
  exact Hc.
Qed.

Lemma key_set_shape_witness :
  key_set (sample_env intel_device false 1 None) (sample_page None) intel_params
    !! "combined_hardware_identifier"
  = Some "vendor_id:0x8086, device_id:0x5912, device_string:None" /\
  exists vendor_id device_id device_string,
    key_set (sample_env intel_device false 1 None) (sample_page None) intel_params
      !! "vendor_id" = Some vendor_id /\
    key_set (sample_env intel_device false 1 None) (sample_page None) intel_params
      !! "device_id" = Some device_id /\
    key_set (sample_env intel_device false 1 None) (sample_page None) intel_params
      !! "device_string" = Some device_string /\
    key_set (sample_env intel_device false 1 None) (sample_page None) intel_params
      !! "combined_hardware_identifier" =
    Some ("vendor_id:" ++ vendor_id ++ ", device_id:" ++ device_id
            ++ ", device_string:" ++ device_string)%string.
Proof.
  split; [vm_compute; reflexivity|].
  exact (proj2 (key_set_shape (sample_env intel_device false 1 None)
                  (sample_page None) initial_state intel_state _
                  (intel_first_build false 1 None None))).
Defined.

(** The id rendering loses nothing: an id is recovered from its rendering,
    different ids (or an id and no id) never render alike. *)
Theorem _ToHexOrNone_injective (a b : option Z) :
  (forall n, HexString.to_Z (_ToHexOrNone (Some n)) = n) /\
  (_ToHexOrNone a = _ToHexOrNone b -> a = b).
Proof.
  split; [intros n; apply _ToHex_decodes|].
  destruct a as [x|], b as [y|]; simpl; intros H.
  - f_equal. rewrite <- (_ToHex_decodes x), <- (_ToHex_decodes y), H. reflexivity.
  - destruct x; discriminate.
  - destruct y; discriminate.
  - reflexivity.
Qed.

Lemma _ToHexOrNone_injective_witness :
  (forall n, HexString.to_Z (_ToHexOrNone (Some n)) = n) /\
  Some 32902 = Some (HexString.to_Z "0x8086").
Proof.
  split.
  - exact (proj1 (_ToHexOrNone_injective None None)).
  - exact (proj2 (_ToHexOrNone_injective (Some 32902)
                    (Some (HexString.to_Z "0x8086"))) eq_refl).
Defined.

(** ** More on the upload *)

(** A passing comparison is silent: nothing is logged, no link is created
    and nothing is raised, whatever the options and the grace period; the
    state is the one the key-set build left. *)
Theorem upload_pass_is_silent (env : Env) (image_name : string)
    (screenshot : list Z) (page : Page.t) (st st1 : state)
    (keys : gmap string string) (error : option string)
    (Hkeys : GetGoldJsonKeys env page st = (Ok keys, st1))
    (Hrun : comparison env image_name screenshot page keys = (0, error)) :
  _UploadTestResultToSkiaGold env image_name screenshot page st = (Ok tt, st1) /\
  log st1 = log st.
Proof.
  rewrite (_UploadTestResultToSkiaGold_run _ _ _ _ _ _ _ _ _ Hkeys Hrun).
  split; [reflexivity|].
  destruct (GetGoldJsonKeys_ok _ _ _ _ _ Hkeys) as (p & _ & _ & Hlog). exact Hlog.
Qed.

Lemma upload_pass_is_silent_witness :
  _UploadTestResultToSkiaGold (sample_env intel_device false 0 None) "pixel_test"
    [] (sample_page None) initial_state = (Ok tt, intel_state) /\
  log intel_state = log initial_state.
Proof.
  exact (upload_pass_is_silent (sample_env intel_device false 0 None) "pixel_test"
           [] (sample_page None) initial_state intel_state _
           (Some "goldctl output") (intel_first_build false 0 None None) eq_refl).
Defined.

(** When the key set cannot be built, the upload raises the builder's
    exception without running a comparison or logging anything.  That
    exception is never the comparison-failure one, and neither the bypass
    option nor a grace period holds it back. *)
Theorem builder_error_not_suppressed (env : Env) (image_name : string)
    (screenshot : list Z) (page : Page.t) (st st1 : state) (e : exn)
    (Hkeys : GetGoldJsonKeys env page st = (Raise e, st1)) :
  _UploadTestResultToSkiaGold env image_name screenshot page st = (Raise e, st1) /\
  log st1 = log st /\
  e <> Exception "goldctl command failed, see above for details".
Proof.
  split; [exact (_UploadTestResultToSkiaGold_builder_raises _ _ _ _ _ _ _ Hkeys)|].
  destruct (GetGoldJsonKeys_result env page st)
    as [(p & st2 & Hk & _) | (e' & st2 & Hk & Hlog & He)];
    rewrite Hk in Hkeys; [discriminate|].
  injection Hkeys as <- <-. split; assumption.
Qed.

Lemma builder_error_not_suppressed_witness :
  _UploadTestResultToSkiaGold (sample_env software_device true 1 None) "pixel_test"
    [] (sample_page (Some (Date 2024 3 1))) initial_state
  = (Raise (Exception "GPU device information was incomplete"),
     State [ImageParameters.init] (Some 0%nat) []) /\
  log (State [ImageParameters.init] (Some 0%nat) []) = log initial_state /\
  Exception "GPU device information was incomplete"
  <> Exception "goldctl command failed, see above for details".
Proof.
  exact (builder_error_not_suppressed (sample_env software_device true 1 None)
           "pixel_test" [] (sample_page (Some (Date 2024 3 1))) initial_state
           (State [ImageParameters.init] (Some 0%nat) [])
           (Exception "GPU device information was incomplete") eq_refl).
Defined.

(** A key set that carries the 'ignore' marker belongs to a run whose
    comparison failure is not surfaced: whatever status the comparison
    returns, the upload returns normally. *)
Theorem ignore_marker_suppresses_failure (env : Env) (image_name : string)
    (screenshot : list Z) (page : Page.t) (st st1 : state)
    (keys : gmap string string)
    (Hkeys : GetGoldJsonKeys env page st = (Ok keys, st1))
    (Hignore : keys !! "ignore" = Some "1") :
  (_UploadTestResultToSkiaGold env image_name screenshot page st).1 = Ok tt.
Proof.
  destruct (comparison env image_name screenshot page keys)
    as [status error] eqn:Hrun.
  rewrite (_UploadTestResultToSkiaGold_run _ _ _ _ _ _ _ _ _ Hkeys Hrun).
  destruct (GetGoldJsonKeys_ok _ _ _ _ _ Hkeys) as (p & -> & _ & _).
  rewrite key_set_ignore in Hignore.
  destruct (status =? 0); [reflexivity|].
  unfold _ShouldReportGoldFailure.
  destruct (_GracePeriodActive (today env) page); [|discriminate].
  destruct (Options.no_skia_gold_failure _); reflexivity.
Qed.

Lemma ignore_marker_suppresses_failure_witness :
  (_UploadTestResultToSkiaGold (sample_env intel_device false 1 None) "pixel_test"
     [] (sample_page (Some (Date 2024 3 1))) initial_state).1 = Ok tt.
Proof.
  refine (ignore_marker_suppresses_failure (sample_env intel_device false 1 None)
            "pixel_test" [] (sample_page (Some (Date 2024 3 1))) initial_state
            intel_state _
            (intel_first_build false 1 None (Some (Date 2024 3 1))) _).
  vm_compute. reflexivity.
Defined.

Lemma outcome_kind_REMOTE status_codes status :
  outcome_kind status_codes status = Outcome.REMOTE_MISMATCH ->
  status <> 0 /\ status = StatusCodes.COMPARISON_FAILURE_REMOTE status_codes.
Proof.
  unfold outcome_kind.
  destruct (Z.eqb_spec status 0); [discriminate|].
  destruct (status =? StatusCodes.AUTH_FAILURE _); [discriminate|].
  destruct (status =? StatusCodes.INIT_FAILURE _); [discriminate|].
  destruct (Z.eqb_spec status (StatusCodes.COMPARISON_FAILURE_REMOTE status_codes)).
  - intros _. split; assumption.
  - repeat (destruct (_ =? _); [discriminate|]). discriminate.
Qed.

Lemma local_diff_links_no_link gold_session image_name name link :
  ~ In (CreateLink name link) (local_diff_links gold_session image_name).
Proof.
  unfold local_diff_links. simpl. intros [H | [H | [H | []]]]; discriminate.
Qed.

(** A link artifact is created only for a remote comparison failure with a
    non-empty triage link, and then it is the only thing the upload emits:
    one link, named 'triage_link_for_entire_cl' or 'gold_triage_link', whose
    target is that triage link. *)
Theorem link_only_on_remote_mismatch (env : Env) (image_name : string)
    (screenshot : list Z) (page : Page.t) (st st1 : state)
    (keys : gmap string string) (status : Z) (error : option string)
    (Hkeys : GetGoldJsonKeys env page st = (Ok keys, st1))
    (Hrun : comparison env image_name screenshot page keys = (status, error)) :
  exists emitted,
    log (_UploadTestResultToSkiaGold env image_name screenshot page st).2
    = log st ++ emitted /\
    forall name link,
      In (CreateLink name link) emitted ->
      status <> 0 /\
      status = StatusCodes.COMPARISON_FAILURE_REMOTE (SessionStatusCodes env) /\
      emitted = [CreateLink name link] /\
      (name = "triage_link_for_entire_cl" \/ name = "gold_triage_link") /\
      exists target,
        link = PStr target /\ target <> "" /\
        (Session.GetTriageLinks (GetSkiaGoldSession env keys SKIA_GOLD_CORPUS)
           image_name).2 = Some target.
Proof.
  rewrite (_UploadTestResultToSkiaGold_run _ _ _ _ _ _ _ _ _ Hkeys Hrun).
  destruct (GetGoldJsonKeys_ok _ _ _ _ _ Hkeys) as (p & _ & _ & Hlog).
  destruct (status =? 0).
  { exists []. cbn [snd]. rewrite app_nil_r. split; [exact Hlog|].
    intros name link []. }
  eexists. cbn [snd log]. rewrite Hlog. split; [reflexivity|].
  intros name link Hin.
  destruct (outcome_kind (SessionStatusCodes env) status) eqn:Hkind;
    cbn [diagnostics] in Hin.
  - destruct Hin.
  - destruct Hin as [H | []]; discriminate.
  - destruct Hin as [H | []]; discriminate.
  - destruct (outcome_kind_REMOTE _ _ Hkind) as [Hne Hremote].
    cbn [diagnostics].
    destruct (Session.GetTriageLinks _ image_name).2 as [target|] eqn:Hlink;
      cbn [truthy_str] in Hin |- *.
    + destruct (String.eqb_spec target "") as [-> | Htarget]; cbn [negb] in Hin |- *.
      * destruct Hin as [H | [H | []]]; discriminate.
      * destruct Hin as [H | []]. injection H as <- <-.
        split; [exact Hne|]. split; [exact Hremote|]. split; [reflexivity|].
        split; [destruct (GoldProperties.IsTryjobRun _); auto|].
        exists target. auto.
    + destruct Hin as [H | [H | []]]; discriminate.
  - destruct Hin as [H | Hin]; [discriminate|].
    destruct (local_diff_links_no_link _ _ _ _ Hin).
  - destruct Hin as [H | [H | Hin]]; [discriminate | discriminate |].
    destruct (local_diff_links_no_link _ _ _ _ Hin).
  - destruct Hin as [H | []]; discriminate.
Qed.

Lemma link_only_on_remote_mismatch_witness :
  exists emitted,
    log (_UploadTestResultToSkiaGold
           (sample_env intel_device false 3 (Some "https://gold/cl/1"))
           "pixel_test" [] (sample_page None) initial_state).2
    = log initial_state ++ emitted /\
    forall name link,
      In (CreateLink name link) emitted ->
      3 <> 0 /\ 3 = 3 /\
      emitted = [CreateLink name link] /\
      (name = "triage_link_for_entire_cl" \/ name = "gold_triage_link") /\
      exists target,
        link = PStr target /\ target <> "" /\
        Some "https://gold/cl/1" = Some target.
Proof.
  exact (link_only_on_remote_mismatch
           (sample_env intel_device false 3 (Some "https://gold/cl/1"))
           "pixel_test" [] (sample_page None) initial_state intel_state _ 3
           (Some "goldctl output")
           (intel_first_build false 3 (Some "https://gold/cl/1") None) eq_refl).
Defined.

(** What a diff-file log line shows for a link the session may not have. *)
Definition shown_link (link : option string) (shown : string) : Prop :=
  (exists l, link = Some l /\ l <> "" /\ shown = l) \/
  ((link = None \/ link = Some "") /\ shown = "Unable to retrieve link").

Lemma str_or_shown link : shown_link link (str_or link "Unable to retrieve link").
Proof.
  unfold shown_link, str_or. destruct link as [l|]; [|right; auto].
  destruct (String.eqb_spec l "") as [-> | Hne]; [right; auto | left; eauto].
Qed.

Lemma outcome_kind_local status_codes status :
  status <> 0 ->
  status <> StatusCodes.AUTH_FAILURE status_codes ->
  status <> StatusCodes.INIT_FAILURE status_codes ->
  status <> StatusCodes.COMPARISON_FAILURE_REMOTE status_codes ->
  outcome_kind status_codes status =
  if status =? StatusCodes.COMPARISON_FAILURE_LOCAL status_codes
  then Outcome.LOCAL_MISMATCH
  else if status =? StatusCodes.LOCAL_DIFF_FAILURE status_codes
  then Outcome.LOCAL_DIFF_ERROR
  else Outcome.UNKNOWN.
Proof.
  intros H0 H1 H2 H3. unfold outcome_kind.
  apply Z.eqb_neq in H0, H1, H2, H3. rewrite H0, H1, H2, H3. reflexivity.
Qed.

(** Local failures always show where the diff files are.  On the local
    comparison-failure status the upload logs a header and then the
    generated, closest and diff image, in that order; on the local
    diff-failure status it first logs the diff-generation error and a header
    and then the same three lines.  Each line shows the session's link, or
    'Unable to retrieve link' when the session has none or an empty one. *)
Theorem local_failures_log_diff_files (env : Env) (image_name : string)
    (screenshot : list Z) (page : Page.t) (st st1 : state)
    (keys : gmap string string) (status : Z) (error : option string)
    (Hkeys : GetGoldJsonKeys env page st = (Ok keys, st1))
    (Hrun : comparison env image_name screenshot page keys = (status, error))
    (Hfail : status <> 0)
    (Hauth : status <> StatusCodes.AUTH_FAILURE (SessionStatusCodes env))
    (Hinit : status <> StatusCodes.INIT_FAILURE (SessionStatusCodes env))
    (Hremote : status <> StatusCodes.COMPARISON_FAILURE_REMOTE (SessionStatusCodes env)) :
  let gold_session := GetSkiaGoldSession env keys SKIA_GOLD_CORPUS in
  let final := (_UploadTestResultToSkiaGold env image_name screenshot page st).2 in
  exists given closest diff,
    shown_link (Session.GetGivenImageLink gold_session image_name) given /\
    shown_link (Session.GetClosestImageLink gold_session image_name) closest /\
    shown_link (Session.GetDiffImageLink gold_session image_name) diff /\
    let files :=
      [LoggingError "Generated image: %s" [PStr given];
       LoggingError "Closest image: %s" [PStr closest];
       LoggingError "Diff image: %s" [PStr diff]] in
    (status = StatusCodes.COMPARISON_FAILURE_LOCAL (SessionStatusCodes env) ->
     log final =
     log st ++ LoggingError "Local comparison failed. Local diff files:" [] :: files) /\
    (status <> StatusCodes.COMPARISON_FAILURE_LOCAL (SessionStatusCodes env) ->
     status = StatusCodes.LOCAL_DIFF_FAILURE (SessionStatusCodes env) ->
     log final =
     log st ++
     LoggingError
       "Local comparison failed and an error occurred during diff generation: %s"
       [of_opt_str error]
     :: LoggingError "Local diff files:" [] :: files).
Proof.
  intros gold_session final. subst final.
  rewrite (_UploadTestResultToSkiaGold_run _ _ _ _ _ _ _ _ _ Hkeys Hrun).
  destruct (GetGoldJsonKeys_ok _ _ _ _ _ Hkeys) as (p & _ & _ & Hlog).
  rewrite (outcome_kind_local _ _ Hfail Hauth Hinit Hremote).
  apply Z.eqb_neq in Hfail. rewrite Hfail. cbn [snd log]. rewrite Hlog.
  fold gold_session.
  exists (str_or (Session.GetGivenImageLink gold_session image_name)
            "Unable to retrieve link"),
         (str_or (Session.GetClosestImageLink gold_session image_name)
            "Unable to retrieve link"),
         (str_or (Session.GetDiffImageLink gold_session image_name)
            "Unable to retrieve link").
  split; [apply str_or_shown|]. split; [apply str_or_shown|].
  split; [apply str_or_shown|].
  cbv zeta. split.
  - intros ->. rewrite Z.eqb_refl. reflexivity.
  - intros Hlocal ->. apply Z.eqb_neq in Hlocal. rewrite Hlocal, Z.eqb_refl.
    reflexivity.
Qed.

Lemma local_failures_log_diff_files_witness :
  exists given closest diff,
    shown_link (Some "file:///tmp/given.png") given /\
    shown_link None closest /\
    shown_link (Some "") diff /\
    let files :=
      [LoggingError "Generated image: %s" [PStr given];
       LoggingError "Closest image: %s" [PStr closest];
       LoggingError "Diff image: %s" [PStr diff]] in
    (4 = 4 ->
     log (_UploadTestResultToSkiaGold (sample_env intel_device false 4 None)
            "pixel_test" [] (sample_page None) initial_state).2 =
     [] ++ LoggingError "Local comparison failed. Local diff files:" [] :: files) /\
    (4 <> 4 -> 4 = 5 ->
     log (_UploadTestResultToSkiaGold (sample_env intel_device false 4 None)
            "pixel_test" [] (sample_page None) initial_state).2 =
     [] ++
     LoggingError
       "Local comparison failed and an error occurred during diff generation: %s"
       [PStr "goldctl output"]
     :: LoggingError "Local diff files:" [] :: files).
Proof.
  exact (local_failures_log_diff_files (sample_env intel_device false 4 None)
           "pixel_test" [] (sample_page None) initial_state intel_state _ 4
           (Some "goldctl output") (intel_first_build false 4 None None) eq_refl
           ltac:(discriminate) ltac:(discriminate) ltac:(discriminate)
           ltac:(discriminate)).
Defined.

(** Authentication and initialisation failures, and any status the module
    does not know, each leave exactly one error line in the log: it carries
    the service's output, and for an unknown status the raw status too, so
    no failing status passes without a trace. *)
Theorem single_line_outcomes (env : Env) (image_name : string)
    (screenshot : list Z) (page : Page.t) (st st1 : state)
    (keys : gmap string string) (status : Z) (error : option string)
    (Hkeys : GetGoldJsonKeys env page st = (Ok keys, st1))
    (Hrun : comparison env image_name screenshot page keys = (status, error))
    (Hfail : status <> 0) :
  let codes := SessionStatusCodes env in
  let final := (_UploadTestResultToSkiaGold env image_name screenshot page st).2 in
  (status = StatusCodes.AUTH_FAILURE codes ->
   log final =
   log st ++
   [LoggingError "Gold authentication failed with output %s" [of_opt_str error]]) /\
  (status <> StatusCodes.AUTH_FAILURE codes ->
   status = StatusCodes.INIT_FAILURE codes ->
   log final =
   log st ++
   [LoggingError "Gold initialization failed with output %s" [of_opt_str error]]) /\
  (status <> StatusCodes.AUTH_FAILURE codes ->
   status <> StatusCodes.INIT_FAILURE codes ->
   status <> StatusCodes.COMPARISON_FAILURE_REMOTE codes ->
   status <> StatusCodes.COMPARISON_FAILURE_LOCAL codes ->
   status <> StatusCodes.LOCAL_DIFF_FAILURE codes ->
   log final =
   log st ++
   [LoggingError "Given unhandled SkiaGoldSession StatusCode %s with error %s"
      [PInt status; of_opt_str error]]).
Proof.
  intros codes final. subst codes final.
  rewrite (_UploadTestResultToSkiaGold_run _ _ _ _ _ _ _ _ _ Hkeys Hrun).
  destruct (GetGoldJsonKeys_ok _ _ _ _ _ Hkeys) as (p & _ & _ & Hlog).
  unfold outcome_kind.
  apply Z.eqb_neq in Hfail. rewrite Hfail. cbn [snd log]. rewrite Hlog.
  split; [|split].
  - intros ->. rewrite Z.eqb_refl. reflexivity.
  - intros Ha ->. apply Z.eqb_neq in Ha. rewrite Ha, Z.eqb_refl. reflexivity.
  - intros Ha Hi Hr Hl Hd.
    apply Z.eqb_neq in Ha, Hi, Hr, Hl, Hd. rewrite Ha, Hi, Hr, Hl, Hd. reflexivity.
Qed.

Lemma single_line_outcomes_witness :
  log (_UploadTestResultToSkiaGold (sample_env intel_device false 6 None)
         "pixel_test" [] (sample_page None) initial_state).2
  = [] ++
    [LoggingError "Given unhandled SkiaGoldSession StatusCode %s with error %s"
       [PInt 6; PStr "goldctl output"]].
Proof.
  exact (proj2 (proj2 (single_line_outcomes (sample_env intel_device false 6 None)
                         "pixel_test" [] (sample_page None) initial_state
                         intel_state _ 6 (Some "goldctl output")
                         (intel_first_build false 6 None None) eq_refl
                         ltac:(discriminate)))
               ltac:(discriminate) ltac:(discriminate) ltac:(discriminate)
               ltac:(discriminate) ltac:(discriminate)).
Defined.

(** ** The grace period over time *)

Lemma date_le_trans a b c :
  date_le a b = true -> date_le b c = true -> date_le a c = true.
Proof. rewrite !date_le_spec. lia. Qed.

Lemma date_le_total a b : date_le a b = true \/ date_le b a = true.
Proof. rewrite !date_le_spec. lia. Qed.

(** A grace period only ever runs out: if it is active on some day it was
    active on every earlier day, and once it is not active (or when the page
    has none) it is not active on any later day. *)
Theorem grace_period_monotone (page : Page.t) (earlier later : date)
    (Horder : date_le earlier later = true) :
  (_GracePeriodActive later page = true -> _GracePeriodActive earlier page = true) /\
  (_GracePeriodActive earlier page = false -> _GracePeriodActive later page = false).
Proof.
  assert (Hmono : _GracePeriodActive later page = true ->
                  _GracePeriodActive earlier page = true).
  { unfold _GracePeriodActive.
    destruct (Page.grace_period_end page) as [end_date|]; [|discriminate].
    intros Hlater. exact (date_le_trans _ _ _ Horder Hlater). }
  split; [exact Hmono|].
  intros Hearly. destruct (_GracePeriodActive later page); [|reflexivity].
  rewrite (Hmono eq_refl) in Hearly. discriminate.
Qed.

Lemma grace_period_monotone_witness :
  _GracePeriodActive (Date 2024 2 29) (sample_page (Some (Date 2024 3 1))) = true.
Proof.
  exact (proj1 (grace_period_monotone (sample_page (Some (Date 2024 3 1)))
                  (Date 2024 2 29) (Date 2024 3 1) eq_refl) eq_refl).
Defined.

Lemma error_image_name_sanitized_witness :
  exists machine_name,
    _UploadGoldErrorImageToCloudStorage (Some "abc123") "win10_bot7" "pixel_test" =
    MkInsert "chromium-browser-gpu-tests/gold_failures"
      ("pixel_test" ++ "_" ++ machine_name ++ "_" ++ "abc123" ++ ".png")%string
      true /\
    all_chars is_word_char machine_name = true /\
    (String.length machine_name <= String.length "win10_bot7")%nat /\
    (all_chars is_word_char "win10_bot7" = true -> machine_name = "win10_bot7").
Proof.
  exact (error_image_name_sanitized (Some "abc123") "win10_bot7" "pixel_test").
Defined.
